(** * Gesture detection: a shallow embedding of [GestureDetector]

    Source: [synesthesia/gesture_detection.py] (class [GestureDetector]:
    [__init__], [_debounce], [_get_min_distance], [detect]).

    Conventions of the embedding.
    - Python floats (landmark coordinates, clock readings, the debounce
      time) are rationals [Q]; comparisons are the exact ones.  Where
      [detect] multiplies or subtracts coordinates ([x * w], [y * h],
      [current_pos - wave_start_pos], the travel times the width) the
      result is rounded to binary64, to nearest and ties to even, as the
      code rounds it ([round64]; the exponent range is not bounded above,
      so overflow to infinity is outside the embedding).  Differences of
      clock readings are taken exactly: binary64 subtraction is exact for
      two values within a factor 2 of each other, as two readings of
      [time.time()] are, and for [now - 0].  [_get_min_distance], which
      [detect] never calls, is kept in exact arithmetic.
    - [np.hypot] and [np.linalg.norm] return a square root.  A distance is
      kept as its radicand ([Sqrt r] stands for the real number sqrt r), so
      that every comparison the code makes with a pixel constant is decided
      exactly on the squares.
    - [time.time()] is an effect: the world carries the sequence of clock
      readings and the number of readings consumed so far.
    - [self.hands.process(rgb).multi_hand_landmarks] is an input of the
      frame (the landmark provider is external); [None] is the empty list,
      both being falsy in [if results.multi_hand_landmarks:].
    - Indexing a [landmark] list out of range raises [IndexError]; the
      mutations done before the exception stay in the world.
    - The [print] calls are not modelled. *)

From Stdlib Require Import Reals Qreals.
From Stdlib Require Import QArith ZArith Qabs Lia Lqa.
From stdpp Require Import gmap strings list.

(** ** Numbers *)

(** [a < b] on floats, as a boolean. *)
Definition Qltb (a b : Q) : bool := negb (Qle_bool b a).

(** Python's [int()] on a float: truncation toward zero. *)
Definition int (q : Q) : Z := Z.quot (Qnum q) (Z.pos (Qden q)).

(** *** Binary64 arithmetic *)

(** [floor (log2 |q|)], for [q] other than 0. *)
Definition Qlog2 (q : Q) : Z :=
  let a := Z.abs (Qnum q) in
  let b := Z.pos (Qden q) in
  let e := (Z.log2 a - Z.log2 b)%Z in
  if (0 <=? e)%Z
  then (if (b * 2 ^ e <=? a)%Z then e else e - 1)%Z
  else (if (b <=? a * 2 ^ (- e))%Z then e else e - 1)%Z.

(** [2 ^ e], for any integer [e]. *)
Definition pow2 (e : Z) : Q :=
  if (0 <=? e)%Z then inject_Z (2 ^ e) else 1 # Z.to_pos (2 ^ (- e)).

(** The nearest integer, ties to even. *)
Definition round_half_even (q : Q) : Z :=
  let d := Z.pos (Qden q) in
  let n := (Qnum q / d)%Z in
  match (2 * (Qnum q - n * d) ?= d)%Z with
  | Lt => n
  | Gt => (n + 1)%Z
  | Eq => if Z.even n then n else (n + 1)%Z
  end.

(** The nearest binary64 value, ties to even: a significand of 53 bits, and
    the quantum [2 ^ -1074] in the subnormal range. *)
Definition round64 (q : Q) : Q :=
  if Qeq_bool q 0 then 0
  else
    let e := Z.max (Qlog2 q - 52) (-1074) in
    Qred (inject_Z (round_half_even (q / pow2 e)) * pow2 e).

(** [a * b] and [a - b] on floats. *)
Definition fmul (a b : Q) : Q := round64 (a * b).
Definition fsub (a b : Q) : Q := round64 (a - b).

(** An [int] operand of a float operation. *)
Definition float_of_int (n : Z) : Q := round64 (inject_Z n).

(** *** Distances *)

(** The real number [sqrt radicand]. *)
Record Dist := Sqrt { radicand : Q }.

(** [np.hypot(a, b)] on integers. *)
Definition hypot (a b : Z) : Dist := Sqrt (inject_Z (a * a + b * b)).

(** [np.linalg.norm(v)] on a 2-vector. *)
Definition norm (v : Q * Q) : Dist := Sqrt (fst v * fst v + snd v * snd v).

(** The distance of [c] pixels, for [0 <= c]. *)
Definition px (c : Z) : Dist := Sqrt (inject_Z (c * c)).

(** [d > c] and [d < c] for a distance [d] and an integer constant [c]. *)
Definition dist_gt (d : Dist) (c : Z) : bool :=
  (c <? 0)%Z || Qltb (inject_Z (c * c)) (radicand d).
Definition dist_lt (d : Dist) (c : Z) : bool :=
  (0 <? c)%Z && Qltb (radicand d) (inject_Z (c * c)).

(** Two distances denote the same real number. *)
Definition dist_eq (d1 d2 : Dist) : Prop := (radicand d1 == radicand d2)%Q.

(** The real number a distance stands for. *)
Definition dist_R (d : Dist) : R := sqrt (Q2R (radicand d)).

(** ** Data *)

(** A normalized landmark ([z] and [visibility] are never read). *)
Record NormalizedLandmark := { x : Q; y : Q }.

(** One hand: [handLms.landmark] is the list of its points. *)
Record NormalizedLandmarkList := { landmark : list NormalizedLandmark }.

(** A frame: [frame.shape] is [(h, w, channels)]; [multi_hand_landmarks] is
    what the landmark provider reports for this frame. *)
Record Frame := {
  shape : Z * Z * Z;
  multi_hand_landmarks : list NormalizedLandmarkList
}.

(** The attributes [wave_prev_time] and [wave_start_pos]: created together
    on the first open-hand observation, absent before ([hasattr]). *)
Record WaveTrack := { wave_prev_time : Q; wave_start_pos : Q }.

Record GestureDetector := {
  last_gesture_time : gmap string Q;
  debounce_time : Q;
  clap_state : string;
  prev_dist : option Dist;
  prev_time : option Q;
  dist_threshold_apart : Z;
  dist_threshold_close : Z;
  speed_threshold_close : Z;
  speed_threshold_apart : Z;
  clap_dist_history : option (list Dist);
  wave : option WaveTrack
}.

(** [GestureDetector.__init__(debounce_time)]. *)
Definition __init__ (debounce_time : Q) : GestureDetector := {|
  last_gesture_time := ∅;
  debounce_time := debounce_time;
  clap_state := "apart";
  prev_dist := None;
  prev_time := None;
  dist_threshold_apart := 120;
  dist_threshold_close := 70;
  speed_threshold_close := 300;
  speed_threshold_apart := 200;
  clap_dist_history := None;
  wave := None
|}.

(** The default of [debounce_time] in [__init__]. *)
Definition default_debounce_time : Q := 1 # 2.

(** ** The world and the monad of [detect] *)

Record World := {
  self : GestureDetector;
  readings : nat -> Q;
  ticks : nat
}.

Inductive Exception := IndexError.

Inductive Outcome (A : Type) :=
| Return (a : A)
| Raise (e : Exception).
Arguments Return {A} a.
Arguments Raise {A} e.

Definition M (A : Type) : Type := World -> Outcome A * World.

Definition ret {A} (a : A) : M A := fun w => (Return a, w).

Definition bind {A B} (m : M A) (k : A -> M B) : M B :=
  fun w => match m w with
           | (Return a, w') => k a w'
           | (Raise e, w') => (Raise e, w')
           end.

Notation "v <- m ;; k" := (bind m (fun v => k))
  (at level 100, m at next level, right associativity,
   format "'[v' v  <-  m  ;;  '/' k ']'").
Notation "m ;;; k" := (bind m (fun _ => k))
  (at level 100, right associativity).

Definition get_self : M GestureDetector := fun w => (Return (self w), w).

Definition put_self (s : GestureDetector) : M unit :=
  fun w => (Return tt, {| self := s; readings := readings w; ticks := ticks w |}).

(** [time.time()]: the next clock reading. *)
Definition time_time : M Q :=
  fun w => (Return (readings w (ticks w)),
            {| self := self w; readings := readings w; ticks := S (ticks w) |}).

(** [l[i]] for a non-negative constant [i]. *)
Definition getitem {A} (l : list A) (i : nat) : M A :=
  fun w => match l !! i with
           | Some a => (Return a, w)
           | None => (Raise IndexError, w)
           end.

(** Attribute assignments. *)
Definition set_last_gesture_time (t : gmap string Q) (s : GestureDetector) :=
  {| last_gesture_time := t;
     debounce_time := debounce_time s;
     clap_state := clap_state s;
     prev_dist := prev_dist s;
     prev_time := prev_time s;
     dist_threshold_apart := dist_threshold_apart s;
     dist_threshold_close := dist_threshold_close s;
     speed_threshold_close := speed_threshold_close s;
     speed_threshold_apart := speed_threshold_apart s;
     clap_dist_history := clap_dist_history s;
     wave := wave s |}.

Definition set_clap_reset (s : GestureDetector) :=
  {| last_gesture_time := last_gesture_time s;
     debounce_time := debounce_time s;
     clap_state := "apart";
     prev_dist := None;
     prev_time := prev_time s;
     dist_threshold_apart := dist_threshold_apart s;
     dist_threshold_close := dist_threshold_close s;
     speed_threshold_close := speed_threshold_close s;
     speed_threshold_apart := speed_threshold_apart s;
     clap_dist_history := clap_dist_history s;
     wave := wave s |}.

Definition set_clap_dist_history (h : list Dist) (s : GestureDetector) :=
  {| last_gesture_time := last_gesture_time s;
     debounce_time := debounce_time s;
     clap_state := clap_state s;
     prev_dist := prev_dist s;
     prev_time := prev_time s;
     dist_threshold_apart := dist_threshold_apart s;
     dist_threshold_close := dist_threshold_close s;
     speed_threshold_close := speed_threshold_close s;
     speed_threshold_apart := speed_threshold_apart s;
     clap_dist_history := Some h;
     wave := wave s |}.

Definition set_wave (t pos : Q) (s : GestureDetector) :=
  {| last_gesture_time := last_gesture_time s;
     debounce_time := debounce_time s;
     clap_state := clap_state s;
     prev_dist := prev_dist s;
     prev_time := prev_time s;
     dist_threshold_apart := dist_threshold_apart s;
     dist_threshold_close := dist_threshold_close s;
     speed_threshold_close := speed_threshold_close s;
     speed_threshold_apart := speed_threshold_apart s;
     clap_dist_history := clap_dist_history s;
     wave := Some {| wave_prev_time := t; wave_start_pos := pos |} |}.

Definition modify_self (f : GestureDetector -> GestureDetector) : M unit :=
  s <- get_self ;; put_self (f s).

(** ** [GestureDetector._debounce] (lines 29-35) *)

Definition _debounce (gesture : string) : M bool :=
  now <- time_time ;;
  s <- get_self ;;
  let last_time := default 0%Q (last_gesture_time s !! gesture) in
  if Qltb (debounce_time s) (now - last_time) then
    modify_self (set_last_gesture_time (<[gesture := now]> (last_gesture_time s))) ;;;
    ret true
  else ret false.

(** ** [GestureDetector._get_min_distance] (lines 37-52)

    Pure: it reads no attribute of [self] but the arguments. *)

Definition palm (h w : Z) (landmarks : NormalizedLandmarkList)
  : M (Q * Q) :=
  l0 <- getitem (landmark landmarks) 0 ;;
  let wrist := (x l0 * inject_Z w, y l0 * inject_Z h)%Q in
  l9 <- getitem (landmark landmarks) 9 ;;
  let mid_base := (x l9 * inject_Z w, y l9 * inject_Z h)%Q in
  ret ((fst wrist + fst mid_base) / 2, (snd wrist + snd mid_base) / 2)%Q.

Fixpoint palms (h w : Z) (hand_landmarks : list NormalizedLandmarkList)
  (hands : list (Q * Q)) : M (list (Q * Q)) :=
  match hand_landmarks with
  | [] => ret hands
  | landmarks :: rest =>
      p <- palm h w landmarks ;;
      palms h w rest (hands ++ [p])
  end.

Definition _get_min_distance (hand_landmarks : list NormalizedLandmarkList)
  (frame_shape : Z * Z * Z) : M (option Dist) :=
  let '(h, w, _) := frame_shape in
  hands <- palms h w hand_landmarks [] ;;
  match hands with
  | [p0; p1] => ret (Some (norm (fst p0 - fst p1, snd p0 - snd p1)%Q))
  | _ => ret None
  end.

(** ** [GestureDetector.detect] (lines 54-128) *)

(** Lines 70-75: the history after [append] and the [pop(0)] past ten
    entries; a missing attribute starts as the empty list. *)
Definition push_history (hist : option (list Dist)) (dist : Dist)
  : list Dist :=
  let h1 := default [] hist ++ [dist] in
  if (10 <? length h1)%nat then drop 1 h1 else h1.

(** Line 77: [any(d > 200 for d in self.clap_dist_history[:-2])]. *)
Definition was_far (hist : list Dist) : bool :=
  existsb (fun d => dist_gt d 200) (take (length hist - 2) hist).

(** Line 79: the condition under which the gate is asked for a clap. *)
Definition clap_candidate (hist : list Dist) (dist : Dist) : bool :=
  was_far hist && dist_lt dist 120.

(** Lines 63-68: the distance between the two wrists, in integer pixels. *)
Definition wrist_distance (h w : Z) (hand1 hand2 : NormalizedLandmark)
  : Dist :=
  let x1 := int (fmul (x hand1) (float_of_int w)) in
  let y1 := int (fmul (y hand1) (float_of_int h)) in
  let x2 := int (fmul (x hand2) (float_of_int w)) in
  let y2 := int (fmul (y hand2) (float_of_int h)) in
  hypot (x2 - x1) (y2 - y1).

(** Lines 63-83, the branch [len(hand_landmarks) == 2].  The result is
    [Some g] when the branch executes [return g], and [None] when control
    falls through to the loop over the hands. *)
Definition clap_branch (frame : Frame)
  (hand_landmarks : list NormalizedLandmarkList) : M (option string) :=
  let '(h, w, _) := shape frame in
  hl0 <- getitem hand_landmarks 0 ;;
  hand1 <- getitem (landmark hl0) 0 ;;
  hl1 <- getitem hand_landmarks 1 ;;
  hand2 <- getitem (landmark hl1) 0 ;;
  let dist := wrist_distance h w hand1 hand2 in
  s <- get_self ;;
  let hist := push_history (clap_dist_history s) dist in
  modify_self (set_clap_dist_history hist) ;;;
  if clap_candidate hist dist then
    b <- _debounce "clap_gesture" ;;
    if b then ret (Some "clap_gesture"%string) else ret None
  else ret None.

(** Lines 62-86: the clap branch, or the [else] that resets [clap_state]
    and [prev_dist]. *)
Definition clap_phase (frame : Frame)
  (hand_landmarks : list NormalizedLandmarkList) : M (option string) :=
  if (length hand_landmarks =? 2)%nat then clap_branch frame hand_landmarks
  else modify_self set_clap_reset ;;; ret None.

Definition tips : list nat := [4; 8; 12; 16; 20]%nat.

(** Lines 100-104: the loop over [tips[1:]]. *)
Fixpoint other_fingers (handLms : NormalizedLandmarkList) (ts : list nat)
  (fingers : list Z) : M (list Z) :=
  match ts with
  | [] => ret fingers
  | tip :: ts' =>
      a <- getitem (landmark handLms) tip ;;
      b <- getitem (landmark handLms) (tip - 2) ;;
      other_fingers handLms ts'
        (fingers ++ [if Qltb (y a) (y b) then 1%Z else 0%Z])
  end.

(** Lines 90-104: the finger vector of one hand. *)
Definition get_fingers (handLms : NormalizedLandmarkList) : M (list Z) :=
  t4 <- getitem (landmark handLms) 4 ;;
  t3 <- getitem (landmark handLms) 3 ;;
  let fingers := [if Qltb (x t4) (x t3) then 1%Z else 0%Z] in
  other_fingers handLms (drop 1 tips) fingers.

(** Line 119: [abs(current_pos - self.wave_start_pos) * frame.shape[1]]. *)
Definition movement (frame : Frame) (current_pos start_pos : Q) : Q :=
  fmul (Qabs (fsub current_pos start_pos))
       (float_of_int (snd (fst (shape frame)))).

(** Lines 112-126: wave detection for an open hand. *)
Definition wave_detection (frame : Frame) (handLms : NormalizedLandmarkList)
  (gesture : option string) : M (option string) :=
  s <- get_self ;;
  match wave s with
  | None =>
      t <- time_time ;;
      l0 <- getitem (landmark handLms) 0 ;;
      modify_self (set_wave t (x l0)) ;;;
      ret gesture
  | Some wv =>
      t <- time_time ;;
      if Qltb (t - wave_prev_time wv) 1 then
        l0 <- getitem (landmark handLms) 0 ;;
        let current_pos := x l0 in
        if Qltb 60 (movement frame current_pos (wave_start_pos wv)) then
          b <- _debounce "wave" ;;
          if b then ret (Some "wave"%string) else ret gesture
        else ret gesture
      else
        t' <- time_time ;;
        l0 <- getitem (landmark handLms) 0 ;;
        modify_self (set_wave t' (x l0)) ;;;
        ret gesture
  end.

(** Lines 90-126: the body of [for handLms in hand_landmarks]; [gesture]
    is the local variable, read on entry and returned as it is on exit. *)
Definition hand_body (frame : Frame) (handLms : NormalizedLandmarkList)
  (gesture : option string) : M (option string) :=
  fingers <- get_fingers handLms ;;
  gesture <-
    (if bool_decide (fingers = [1; 0; 0; 0; 0]%Z) then
       b <- _debounce "thumbs_up" ;;
       if b then ret (Some "thumbs_up"%string) else ret gesture
     else ret gesture) ;;
  if bool_decide (fingers = [1; 1; 1; 1; 1]%Z) then
    wave_detection frame handLms gesture
  else ret gesture.

(** Lines 89-126: the loop over the hands, in the provider's order. *)
Fixpoint for_hands (frame : Frame)
  (hand_landmarks : list NormalizedLandmarkList) (gesture : option string)
  : M (option string) :=
  match hand_landmarks with
  | [] => ret gesture
  | handLms :: rest =>
      gesture <- hand_body frame handLms gesture ;;
      for_hands frame rest gesture
  end.

Definition detect (frame : Frame) : M (option string) :=
  let gesture : option string := None in
  let hand_landmarks := multi_hand_landmarks frame in
  match hand_landmarks with
  | [] => ret gesture
  | _ :: _ =>
      returned <- clap_phase frame hand_landmarks ;;
      match returned with
      | Some g => ret (Some g)
      | None => for_hands frame hand_landmarks gesture
      end
  end.

(** ** Driving the detector

    [synesthesia.py] calls [detect] once per frame; an exception is not
    caught there and ends the run. *)

Fixpoint detect_all (frames : list Frame) (w : World)
  : list (Outcome (option string)) * World :=
  match frames with
  | [] => ([], w)
  | frame :: rest =>
      match detect frame w with
      | (Return g, w') =>
          let '(gs, w'') := detect_all rest w' in (Return g :: gs, w'')
      | (Raise e, w') => ([Raise e], w')
      end
  end.

(** The world after [frames], whatever each call returned or raised (a
    caller that catches the exception goes on with the same detector). *)
Definition run (frames : list Frame) (w : World) : World :=
  fold_left (fun w frame => snd (detect frame w)) frames w.

(** A fresh detector with the default debounce time, under a clock. *)
Definition fresh (clock : nat -> Q) : World :=
  {| self := __init__ default_debounce_time; readings := clock; ticks := 0 |}.

(** ** Sample inputs *)

Definition point (a b : Q) : NormalizedLandmark := {| x := a; y := b |}.

(** A skeleton of [n] points around [wrist]: the thumb tip (4) is moved
    left of its joint (3) when [thumb], the four other tips are moved above
    their joints when [others]. *)
Definition pose (wrist : NormalizedLandmark) (thumb others : bool) (n : nat)
  : NormalizedLandmarkList :=
  {| landmark :=
       map (fun i =>
              if (i =? 4)%nat
              then point (x wrist - (if thumb then 1 # 10 else 0)) (y wrist)
              else if bool_decide (i ∈ [8; 12; 16; 20]%nat)
                   then point (x wrist)
                              (y wrist - (if others then 1 # 10 else 0))
                   else wrist)
           (seq 0 n) |}.

Definition thumbs_up_hand (a b : Q) := pose (point a b) true false 21.
Definition open_hand (a b : Q) := pose (point a b) true true 21.
Definition fist (a b : Q) := pose (point a b) false false 21.

(** A 640x480 frame with the given hands. *)
Definition frame_of (hs : list NormalizedLandmarkList) : Frame :=
  {| shape := (480, 640, 3)%Z; multi_hand_landmarks := hs |}.

(** A 1000x1000 frame with two fists whose wrists are [d] pixels apart. *)
Definition two_hands_at (d : Z) : Frame :=
  {| shape := (1000, 1000, 3)%Z;
     multi_hand_landmarks := [fist 0 0; fist (d # 1000) 0] |}.

(** A clock that starts at 1000 s and advances 10 ms per reading. *)
Definition clock0 (n : nat) : Q := 1000 + inject_Z (Z.of_nat n) / 100.

(** Scenario A of the specification. *)
Definition scenario_A : list Z := [250; 230; 210; 180; 150; 130; 115; 90]%Z.

(** ** Auxiliary notions used by the properties *)

(** The world after one clock reading. *)
Definition tick (w : World) : World :=
  {| self := self w; readings := readings w; ticks := S (ticks w) |}.

(** The history list, the empty list while the attribute is missing. *)
Definition history (w : World) : list Dist :=
  default [] (clap_dist_history (self w)).

(** The world in which [self.clap_dist_history] has been assigned. *)
Definition with_history (h : list Dist) (w : World) : World :=
  {| self := set_clap_dist_history h (self w);
     readings := readings w; ticks := ticks w |}.

(** [keeps Phi m]: a property of the detector that holds before [m] holds
    after it, whether [m] returns or raises. *)
Definition keeps {A} (Phi : GestureDetector -> Prop) (m : M A) : Prop :=
  forall w, Phi (self w) -> Phi (self (snd (m w))).

(** A property that does not depend on the wave tracking state. *)
Definition wave_blind (Phi : GestureDetector -> Prop) : Prop :=
  forall s t p, Phi s -> Phi (set_wave t p s).

(** A property that does not depend on the debounce table. *)
Definition table_blind (Phi : GestureDetector -> Prop) : Prop :=
  forall s t, Phi s -> Phi (set_last_gesture_time t s).

(** The table holds, for kind [k], a time not before [t] (and the debounce
    time is not negative). *)
Definition slot_taken (k : string) (t : Q) (s : GestureDetector) : Prop :=
  (0 <= debounce_time s)%Q
  /\ exists t', last_gesture_time s !! k = Some t' /\ (t <= t')%Q.

(** Feeding distances to the rule of lines 70-79: for each distance, whether
    the gate is asked for a clap. *)
Fixpoint feed (hist : option (list Dist)) (ds : list Dist) : list bool :=
  match ds with
  | [] => []
  | d :: ds' =>
      let h := push_history hist d in
      clap_candidate h d :: feed (Some h) ds'
  end.

(** ** More sample inputs *)

(** Ten two-hand frames fill the history; the eleventh evicts the first. *)
Definition ten_frames : list Frame :=
  map two_hands_at [300; 290; 280; 270; 260; 250; 240; 230; 220; 210]%Z.

(** A 21-point hand whose points are all at [wrist], but for the
    middle-finger base (index 9). *)
Definition hand_with_base (wrist base : NormalizedLandmark)
  : NormalizedLandmarkList :=
  {| landmark := map (fun i => if (i =? 9)%nat then base else wrist)
                     (seq 0 21) |}.

(** Wrists 320 px apart, palm centers 240 px apart. *)
Definition slanted_hands : Frame :=
  frame_of [hand_with_base (point (1 # 4) (1 # 2)) (point (1 # 4) (1 # 4));
            hand_with_base (point (3 # 4) (1 # 2)) (point (1 # 2) (1 # 4))].

(** Two fists on a 1000x1000 frame, the wrists at x = 0 and at the
    binary64 value nearest to 0.21. *)
Definition double_wrists : Frame :=
  {| shape := (1000, 1000, 3)%Z;
     multi_hand_landmarks := [fist 0 0; fist (round64 (21 # 100)) 0] |}.

(** A detector that has seen an open hand at x = 0.3. *)
Definition after_open_hand : World :=
  run [frame_of [open_hand (3 # 10) (1 # 2)]] (fresh clock0).

(** A thumbs-up hand first, then the open hand moved to x = 0.5. *)
Definition thumb_then_wave : Frame :=
  frame_of [thumbs_up_hand (1 # 10) (1 # 2); open_hand (1 # 2) (1 # 2)].

(** The open hand moved to x = 0.5 first, then a thumbs-up hand. *)
Definition wave_then_thumb : Frame :=
  frame_of [open_hand (1 # 2) (1 # 2); thumbs_up_hand (1 # 10) (1 # 2)].

(** The open hand of [after_open_hand], moved to x = 0.5. *)
Definition sweep : Frame := frame_of [open_hand (1 # 2) (1 # 2)].

(** A thumbs-up hand with 22 points, and one with 20. *)
Definition long_thumb : NormalizedLandmarkList :=
  pose (point (1 # 2) (1 # 2)) true false 22.
Definition short_thumb : NormalizedLandmarkList :=
  pose (point (1 # 2) (1 # 2)) true false 20.

(** Two hands of a single point each, 90 px apart. *)
Definition two_stubs : Frame :=
  {| shape := (1000, 1000, 3)%Z;
     multi_hand_landmarks :=
       [pose (point 0 0) false false 1;
        pose (point (90 # 1000) 0) false false 1] |}.

(** Three two-hand frames with the wrists far apart, one frame with a
    single hand, then one two-hand frame with the wrists 90 px apart. *)
Definition far_gap_close : list Frame :=
  map two_hands_at [250; 230; 210]%Z
  ++ [frame_of [fist (1 # 2) (1 # 2)]]
  ++ [two_hands_at 90].

(** ** [ShapeRenderer] (shape_rendering.py)

    The renderer is modelled up to the drawing calls it issues on the
    overlay: the pixels, and the points of [_draw_star] (which need [cos]
    and [sin]), are outside the embedding.  The final [cv2.addWeighted]
    blend is issued on every call and is not listed. *)

(** [self.event_map], built by [ShapeRenderer.__init__] (lines 7-14). *)
Definition event_entries : list (string * (string * (Z * Z * Z))) :=
  [("clap_gesture", ("circle", (128, 0, 128)));
   ("thumbs_up", ("star", (0, 255, 255)));
   ("wave", ("square", (135, 206, 235)));
   ("clap_sound", ("circle", (128, 0, 128)));
   ("humming", ("triangle", (255, 0, 0)));
   ("snap", ("diamond", (0, 0, 255)))]%string%Z.
Definition event_map : gmap string (string * (Z * Z * Z)) :=
  list_to_map event_entries.

Inductive Cv2Call :=
| cv2_circle (center : Z * Z) (radius : Z) (color : Z * Z * Z) (thickness : Z)
| _draw_star (center : Z * Z) (size : Z) (color : Z * Z * Z)
| cv2_rectangle (pt1 pt2 : Z * Z) (color : Z * Z * Z) (thickness : Z)
| cv2_fillPoly (pts : list (Z * Z)) (color : Z * Z * Z).

(** [ShapeRenderer.draw] (lines 16-44): the calls issued on the overlay. *)
Definition draw (frame_shape : Z * Z * Z) (event : string) : list Cv2Call :=
  let '(h, w, _) := frame_shape in
  let center := (w / 2, h / 2)%Z in
  let '(shape, color) :=
    default (None, (255, 255, 255)%Z)
      ((fun sc : string * (Z * Z * Z) => (Some (fst sc), snd sc))
         <$> event_map !! event) in
  if bool_decide (shape = Some "circle"%string) then
    [cv2_circle center 80 color (-1)]
  else if bool_decide (shape = Some "star"%string) then
    [_draw_star center 80 color]
  else if bool_decide (shape = Some "square"%string) then
    [cv2_rectangle (fst center - 80, snd center - 80)%Z
       (fst center + 80, snd center + 80)%Z color (-1)]
  else if bool_decide (shape = Some "triangle"%string) then
    [cv2_fillPoly [(fst center, snd center - 90);
                   (fst center - 80, snd center + 70);
                   (fst center + 80, snd center + 70)]%Z color]
  else if bool_decide (shape = Some "diamond"%string) then
    [cv2_fillPoly [(fst center, snd center - 90);
                   (fst center - 80, snd center);
                   (fst center, snd center + 90);
                   (fst center + 80, snd center)]%Z color]
  else [].

(** ** The display logic of [main] (synesthesia.py, lines 18-39)

    One turn of the loop, from the gesture [detect] returned and the tick
    clock value [now]: the new [last_event] and [last_event_time], and the
    event handed to [shape_renderer.draw], if any.  Capture, display and the
    key test are outside the embedding. *)

Record MainState := { last_event : option string; last_event_time : Q }.

(** [last_event = None], [last_event_time = 0] (lines 18-19). *)
Definition main_init : MainState :=
  {| last_event := None; last_event_time := 0 |}.

(** Python's truth value of [None] or a string. *)
Definition truthy (e : option string) : bool :=
  match e with
  | Some s => negb (bool_decide (s = ""%string))
  | None => false
  end.

(** [event_display_duration] (line 20). *)
Definition event_display_duration : Q := 1.

Definition main_step (gesture : option string) (now : Q) (st : MainState)
  : MainState * option string :=
  let event := gesture in
  let st :=
    if truthy event
    then {| last_event := event; last_event_time := now |}
    else st in
  (st,
   if truthy (last_event st)
      && Qltb (now - last_event_time st) event_display_duration
   then last_event st else None).

(** The state after a sequence of turns. *)
Definition main_run (turns : list (option string * Q)) (st : MainState)
  : MainState :=
  fold_left (fun st turn => fst (main_step (fst turn) (snd turn) st)) turns st.

(** ** Further notions used by the properties *)

(** The outcome [r] lands in [I]: the returned value and the detector
    satisfy [I]; after an exception the detector satisfies [I] for some
    value. *)
Definition lands {A} (I : A -> GestureDetector -> Prop)
  (r : Outcome A * World) : Prop :=
  match r with
  | (Return a, w') => I a (self w')
  | (Raise _, w') => exists a, I a (self w')
  end.

(** The gesture kinds of [detect]. *)
Definition kinds : list string := ["clap_gesture"; "thumbs_up"; "wave"]%string.

(** A hand moved by [(dx, dy)] in normalized coordinates. *)
Definition translate (dx dy : Q) (h : NormalizedLandmarkList)
  : NormalizedLandmarkList :=
  {| landmark :=
       map (fun l => {| x := x l + dx; y := y l + dy |}) (landmark h) |}.

(** ** Sample inputs of the further properties *)

(** The finger vector is neither [1,0,0,0,0] nor [1,1,1,1,1]. *)
Definition other_pose (h : NormalizedLandmarkList) (w : World) : Prop :=
  exists fingers,
    fst (get_fingers h w) = Return fingers
    /\ fingers <> [1; 0; 0; 0; 0]%Z
    /\ fingers <> [1; 1; 1; 1; 1]%Z.

(** The thumbs-up hand of [thumb_then_wave], alone. *)
Definition thumb_only : Frame := frame_of [thumbs_up_hand (1 # 10) (1 # 2)].

(** A clock that starts at 1000 s and advances 0.3 s per reading. *)
Definition clock_300ms (n : nat) : Q := 1000 + inject_Z (Z.of_nat n) * (3 # 10).

(** A clock that starts at 1000 s and advances 1.1 s per reading. *)
Definition clock_1100ms (n : nat) : Q :=
  1000 + inject_Z (Z.of_nat n) * (11 # 10).

(** A detector that has seen an open hand at x = 0.3 under [clock_1100ms]. *)
Definition after_open_hand_slow : World :=
  run [frame_of [open_hand (3 # 10) (1 # 2)]] (fresh clock_1100ms).

(** Three hands, the last with 5 points. *)
Definition three_hands : list NormalizedLandmarkList :=
  [fist 0 0; fist (1 # 2) 0; pose (point 1 0) false false 5].

(** A clap at tick time 0, a wave at 0.5, then a turn without an event. *)
Definition clap_wave_pause : list (option string * Q) :=
  [(Some "clap_gesture"%string, 0%Q); (Some "wave"%string, 1 # 2);
   (None, 1%Q)].

(** A fist and a hand without points. *)
Definition fist_and_nothing : Frame :=
  frame_of [fist (1 # 2) (1 # 2); {| landmark := [] |}].

(** * Properties *)

(** ** Auxiliary facts *)

Lemma Qltb_lt (a b : Q) : Qltb a b = true <-> (a < b)%Q.
Proof.
  unfold Qltb. rewrite negb_true_iff. split.
  - intros H. apply Qnot_le_lt. intros Hle.
    apply Qle_bool_iff in Hle. congruence.
  - intros H. destruct (Qle_bool b a) eqn:E; [|reflexivity].
    apply Qle_bool_iff in E. exfalso. exact (Qlt_not_le _ _ H E).
Qed.

Lemma Qltb_ge (a b : Q) : Qltb a b = false <-> (b <= a)%Q.
Proof.
  unfold Qltb. rewrite negb_false_iff. apply Qle_bool_iff.
Qed.

(** *** Binary64 rounding on known values *)

(** [round64] on values whose binary64 neighbours are known: 0.1, two ties
    at the end of the 53-bit range, values that are representable, and the
    subnormal range. *)
Lemma round64_samples :
  round64 (1 # 10) = 3602879701896397 # 36028797018963968
  /\ round64 (inject_Z (2 ^ 53 + 1)) = inject_Z (2 ^ 53)
  /\ round64 (inject_Z (2 ^ 53 + 3)) = inject_Z (2 ^ 53 + 4)
  /\ round64 (- (3 # 4)) = - (3 # 4)
  /\ float_of_int 640 = 640%Q
  /\ float_of_int 1000 = 1000%Q
  /\ round64 (1 # 2 ^ 1075) = 0%Q
  /\ round64 (3 # 2 ^ 1075) = 1 # 2 ^ 1073.
Proof.
  repeat split; vm_compute; reflexivity.
Qed.

(** *** Distances as real numbers *)

Lemma Q2R_inject_Z (z : Z) : Q2R (inject_Z z) = IZR z.
Proof. unfold Q2R. cbn. rewrite Rinv_1. apply Rmult_1_r. Qed.

(** The comparisons on radicands are the comparisons of the real numbers. *)
Lemma dist_gt_R (d : Dist) (c : Z) :
  (0 <= c)%Z -> (0 <= radicand d)%Q ->
  dist_gt d c = true <-> (IZR c < dist_R d)%R.
Proof.
  intros Hc Hr. unfold dist_gt, dist_R.
  destruct (Z.ltb_spec c 0) as [Hneg|_]; [lia|]. cbn [orb].
  rewrite Qltb_lt.
  assert (Hc' : (0 <= IZR c)%R) by (apply IZR_le; exact Hc).
  assert (Hr' : (0 <= Q2R (radicand d))%R).
  { replace 0%R with (Q2R 0) by (unfold Q2R; cbn; apply Rmult_0_l).
    apply Qle_Rle. exact Hr. }
  split.
  - intros H. apply Qlt_Rlt in H. rewrite Q2R_inject_Z, mult_IZR in H.
    rewrite <- (sqrt_square (IZR c)) by exact Hc'.
    apply sqrt_lt_1_alt. split; [|exact H].
    apply Rmult_le_pos; exact Hc'.
  - intros H. apply Rlt_Qlt. rewrite Q2R_inject_Z, mult_IZR.
    rewrite <- (sqrt_sqrt (Q2R (radicand d))) by exact Hr'.
    apply Rmult_le_0_lt_compat; assumption.
Qed.

Lemma dist_lt_R (d : Dist) (c : Z) :
  (0 <= radicand d)%Q ->
  dist_lt d c = true <-> (dist_R d < IZR c)%R.
Proof.
  intros Hr. unfold dist_lt, dist_R.
  assert (Hr' : (0 <= Q2R (radicand d))%R).
  { replace 0%R with (Q2R 0) by (unfold Q2R; cbn; apply Rmult_0_l).
    apply Qle_Rle. exact Hr. }
  pose proof (sqrt_pos (Q2R (radicand d))) as Hs.
  destruct (Z.ltb_spec 0 c) as [Hpos|Hneg]; cbn [andb].
  - assert (Hc' : (0 < IZR c)%R) by (apply IZR_lt; exact Hpos).
    rewrite Qltb_lt. split.
    + intros H. apply Qlt_Rlt in H. rewrite Q2R_inject_Z, mult_IZR in H.
      rewrite <- (sqrt_square (IZR c)) by (apply Rlt_le; exact Hc').
      apply sqrt_lt_1_alt. split; [exact Hr' | exact H].
    + intros H. apply Rlt_Qlt. rewrite Q2R_inject_Z, mult_IZR.
      rewrite <- (sqrt_sqrt (Q2R (radicand d))) by exact Hr'.
      apply Rmult_le_0_lt_compat; assumption.
  - split; [discriminate|]. intros H. exfalso.
    assert (H0 : (IZR c <= 0)%R) by (apply IZR_le; exact Hneg).
    apply (Rlt_irrefl 0). apply (Rle_lt_trans _ _ _ Hs).
    apply (Rlt_le_trans _ _ _ H H0).
Qed.

Lemma hypot_R (a b : Z) :
  dist_R (hypot a b) = sqrt (IZR a * IZR a + IZR b * IZR b).
Proof.
  unfold dist_R, hypot. cbn [radicand].
  rewrite Q2R_inject_Z, plus_IZR, !mult_IZR. reflexivity.
Qed.

Lemma hypot_radicand_nonneg (a b : Z) : (0 <= radicand (hypot a b))%Q.
Proof.
  unfold hypot. cbn [radicand]. change 0%Q with (inject_Z 0).
  rewrite <- Zle_Qle. nia.
Qed.

(** *** The monad *)

Ltac munfold :=
  unfold bind, ret, modify_self, get_self, put_self, time_time, getitem in *.

Lemma debounce_unfold (gesture : string) (w : World) :
  _debounce gesture w =
  let now := readings w (ticks w) in
  if Qltb (debounce_time (self w))
          (now - default 0%Q (last_gesture_time (self w) !! gesture))
  then (Return true,
        {| self := set_last_gesture_time
                     (<[gesture := now]> (last_gesture_time (self w))) (self w);
           readings := readings w; ticks := S (ticks w) |})
  else (Return false, tick w).
Proof.
  unfold _debounce. munfold. cbn.
  destruct (Qltb _ _); reflexivity.
Qed.

Lemma debounce_true_table (gesture : string) (w : World) :
  fst (_debounce gesture w) = Return true ->
  last_gesture_time (self (snd (_debounce gesture w)))
  = <[gesture := readings w (ticks w)]> (last_gesture_time (self w)).
Proof.
  rewrite debounce_unfold. cbn zeta.
  destruct (Qltb _ _); cbn [fst snd]; [reflexivity | discriminate].
Qed.

(** ** C9: a frame without hands *)

(** C9. When the provider reports no hand, [detect] returns no event and
    the world is the one before the call: the clap history, [clap_state],
    [prev_dist], [prev_time], the wave tracking state, the debounce table
    (and the clock, which is not read) are all unchanged. *)
Theorem detect_zero_hands (frame : Frame) (w : World) :
  multi_hand_landmarks frame = [] ->
  detect frame w = (Return None, w).
Proof.
  intros H. unfold detect. rewrite H. reflexivity.
Qed.

Lemma detect_zero_hands_witness :
  multi_hand_landmarks (frame_of []) = []
  /\ detect (frame_of []) (fresh clock0) = (Return None, fresh clock0).
Proof.
  split; [reflexivity | apply detect_zero_hands; reflexivity].
Defined.

(** ** C5: the debounce gate *)

(** C5, as the code has it.  [_debounce k] read at clock value [now]
    returns [True] iff [now - table.get(k, 0) > debounce_time] (the default
    is 0, not minus infinity); then it sets [table[k] = now], otherwise it
    leaves the detector as it is.  So the first candidate of a kind is
    allowed iff [now > debounce_time], and when a candidate at [now] is
    allowed, the next one of that kind, at [now'], is allowed iff
    [now' - now > debounce_time] (0.5 s by default). *)
Theorem debounce_gate (gesture : string) (w : World) :
  let now := readings w (ticks w) in
  let now' := readings w (S (ticks w)) in
  let table := last_gesture_time (self w) in
  let r := _debounce gesture w in
  (fst r = Return true <->
   (debounce_time (self w) < now - default 0 (table !! gesture))%Q)
  /\ (fst r = Return true ->
      last_gesture_time (self (snd r)) = <[gesture := now]> table)
  /\ (fst r <> Return true -> fst r = Return false /\ self (snd r) = self w)
  /\ (table !! gesture = None ->
      (fst r = Return true <-> (debounce_time (self w) < now)%Q))
  /\ (fst r = Return true ->
      (fst (_debounce gesture (snd r)) = Return true <->
       (debounce_time (self w) < now' - now)%Q)).
Proof.
  intros now now' table r.
  assert (Hr : r = _debounce gesture w) by reflexivity.
  rewrite debounce_unfold in Hr. cbn zeta in Hr. fold now table in Hr.
  assert (H0 : forall a : Q, (a - 0 == a)%Q) by (intros a; ring).
  destruct (Qltb (debounce_time (self w))
              (now - default 0%Q (table !! gesture))) eqn:E.
  - apply Qltb_lt in E. rewrite Hr. cbn [fst snd].
    split; [tauto|]. split; [reflexivity|]. split; [congruence|].
    split.
    + intros Hnone. rewrite Hnone in E. cbn in E. rewrite H0 in E. tauto.
    + intros _. rewrite debounce_unfold. cbn.
      rewrite lookup_insert_eq. cbn. fold now'.
      destruct (Qltb (debounce_time (self w)) (now' - now)) eqn:E2; cbn.
      * apply Qltb_lt in E2. tauto.
      * apply Qltb_ge in E2. split; [congruence|].
        intros Hlt. exfalso. exact (Qlt_not_le _ _ Hlt E2).
  - apply Qltb_ge in E. rewrite Hr. cbn [fst snd].
    assert (Hn : ~ (debounce_time (self w)
                    < now - default 0 (table !! gesture))%Q).
    { intros Hlt. exact (Qlt_not_le _ _ Hlt E). }
    split; [split; [congruence | tauto]|].
    split; [congruence|]. split; [tauto|].
    split; [|congruence].
    intros Hnone. rewrite Hnone in Hn. cbn in Hn. rewrite H0 in Hn.
    split; [congruence | tauto].
Qed.

Lemma debounce_gate_witness :
  fst (_debounce "wave" (fresh clock0)) = Return true
  /\ fst (_debounce "wave" (snd (_debounce "wave" (fresh clock0))))
     = Return false.
Proof.
  pose proof (debounce_gate "wave" (fresh clock0)) as H.
  cbv zeta in H. destruct H as (H1 & _ & _ & _ & H5).
  assert (Hfirst : fst (_debounce "wave" (fresh clock0)) = Return true).
  { apply H1. vm_compute. reflexivity. }
  split; [exact Hfirst|].
  pose proof (debounce_gate "wave" (snd (_debounce "wave" (fresh clock0))))
    as H'.
  cbv zeta in H'. destruct H' as (_ & _ & H3 & _ & _).
  apply H3. intros Hsecond.
  apply (proj1 (H5 Hfirst)) in Hsecond.
  vm_compute in Hsecond. discriminate Hsecond.
Defined.

(** The claim as the specification words it fails: with an empty table a
    first candidate read at clock value 0.3 is refused, since the code's
    default for a missing entry is 0. *)
Lemma debounce_first_candidate_refused :
  last_gesture_time (self (fresh (fun _ => 3 # 10))) !! "thumbs_up" = None
  /\ fst (_debounce "thumbs_up" (fresh (fun _ => 3 # 10))) = Return false.
Proof.
  split; vm_compute; reflexivity.
Qed.

(** ** What [detect] keeps *)

Section Keeps.
Context (Phi : GestureDetector -> Prop).

Lemma keeps_ret {A} (a : A) : keeps Phi (ret a).
Proof. intros w H. exact H. Qed.

Lemma keeps_bind {A B} (m : M A) (k : A -> M B) :
  keeps Phi m -> (forall a, keeps Phi (k a)) -> keeps Phi (bind m k).
Proof.
  intros Hm Hk w H. unfold bind. specialize (Hm w H).
  destruct (m w) as [[a|e] w']; cbn in *; [apply Hk; exact Hm | exact Hm].
Qed.

Lemma keeps_getitem {A} (l : list A) (i : nat) : keeps Phi (getitem l i).
Proof. intros w H. unfold getitem. destruct (l !! i); exact H. Qed.

Lemma keeps_time_time : keeps Phi time_time.
Proof. intros w H. exact H. Qed.

Lemma keeps_get_self : keeps Phi get_self.
Proof. intros w H. exact H. Qed.

Lemma keeps_modify_self (f : GestureDetector -> GestureDetector) :
  (forall s, Phi s -> Phi (f s)) -> keeps Phi (modify_self f).
Proof. intros Hf w H. cbn. apply Hf. exact H. Qed.

Lemma keeps_debounce_blind (gesture : string) :
  table_blind Phi -> keeps Phi (_debounce gesture).
Proof.
  intros Hb w H. rewrite debounce_unfold. cbn zeta.
  destruct (Qltb _ _); cbn; [apply Hb|]; exact H.
Qed.

Lemma keeps_other_fingers (handLms : NormalizedLandmarkList)
  (ts : list nat) (fingers : list Z) :
  keeps Phi (other_fingers handLms ts fingers).
Proof.
  revert fingers. induction ts as [|tip ts IH]; intros fingers; cbn.
  - apply keeps_ret.
  - apply keeps_bind; [apply keeps_getitem|]. intros a.
    apply keeps_bind; [apply keeps_getitem|]. intros b. apply IH.
Qed.

Lemma keeps_get_fingers (handLms : NormalizedLandmarkList) :
  keeps Phi (get_fingers handLms).
Proof.
  unfold get_fingers.
  apply keeps_bind; [apply keeps_getitem|]. intros t4.
  apply keeps_bind; [apply keeps_getitem|]. intros t3.
  apply keeps_other_fingers.
Qed.

Hypothesis Hgate : forall gesture, keeps Phi (_debounce gesture).
Hypothesis Hwave : wave_blind Phi.

Lemma keeps_wave_detection (frame : Frame)
  (handLms : NormalizedLandmarkList) (gesture : option string) :
  keeps Phi (wave_detection frame handLms gesture).
Proof.
  unfold wave_detection.
  apply keeps_bind; [apply keeps_get_self|]. intros s.
  destruct (wave s) as [wv|].
  - apply keeps_bind; [apply keeps_time_time|]. intros t.
    destruct (Qltb _ _).
    + apply keeps_bind; [apply keeps_getitem|]. intros l0. cbn zeta.
      destruct (Qltb _ _); [|apply keeps_ret].
      apply keeps_bind; [apply Hgate|]. intros []; apply keeps_ret.
    + apply keeps_bind; [apply keeps_time_time|]. intros t'.
      apply keeps_bind; [apply keeps_getitem|]. intros l0.
      apply keeps_bind; [|intros; apply keeps_ret].
      apply keeps_modify_self. intros s'. apply Hwave.
  - apply keeps_bind; [apply keeps_time_time|]. intros t.
    apply keeps_bind; [apply keeps_getitem|]. intros l0.
    apply keeps_bind; [|intros; apply keeps_ret].
    apply keeps_modify_self. intros s'. apply Hwave.
Qed.

Lemma keeps_hand_body (frame : Frame) (handLms : NormalizedLandmarkList)
  (gesture : option string) :
  keeps Phi (hand_body frame handLms gesture).
Proof.
  unfold hand_body.
  apply keeps_bind; [apply keeps_get_fingers|]. intros fingers.
  apply keeps_bind.
  - destruct (bool_decide _); [|apply keeps_ret].
    apply keeps_bind; [apply Hgate|]. intros []; apply keeps_ret.
  - intros g. destruct (bool_decide _); [|apply keeps_ret].
    apply keeps_wave_detection.
Qed.

Lemma keeps_for_hands (frame : Frame)
  (hand_landmarks : list NormalizedLandmarkList) (gesture : option string) :
  keeps Phi (for_hands frame hand_landmarks gesture).
Proof.
  revert gesture. induction hand_landmarks as [|h rest IH];
    intros gesture; cbn.
  - apply keeps_ret.
  - apply keeps_bind; [apply keeps_hand_body|]. intros g. apply IH.
Qed.

Hypothesis Hreset : forall s, Phi s -> Phi (set_clap_reset s).
Hypothesis Hhist : forall s d,
  Phi s ->
  Phi (set_clap_dist_history (push_history (clap_dist_history s) d) s).

Lemma keeps_clap_phase (frame : Frame)
  (hand_landmarks : list NormalizedLandmarkList) :
  keeps Phi (clap_phase frame hand_landmarks).
Proof.
  unfold clap_phase. destruct (_ =? _)%nat.
  - unfold clap_branch. destruct (shape frame) as [[h w] c].
    apply keeps_bind; [apply keeps_getitem|]. intros hl0.
    apply keeps_bind; [apply keeps_getitem|]. intros hand1.
    apply keeps_bind; [apply keeps_getitem|]. intros hl1.
    apply keeps_bind; [apply keeps_getitem|]. intros hand2. cbn zeta.
    intros w0 H0. unfold bind at 1, get_self at 1.
    unfold bind at 1. cbn [modify_self bind get_self put_self].
    match goal with
    | |- Phi (self (snd (?tail ?w1))) =>
        assert (Ht : keeps Phi tail); [|apply Ht; cbn; apply Hhist; exact H0]
    end.
    destruct (clap_candidate _ _); [|apply keeps_ret].
    apply keeps_bind; [apply Hgate|]. intros []; apply keeps_ret.
  - apply keeps_bind; [|intros; apply keeps_ret].
    apply keeps_modify_self. exact Hreset.
Qed.

Lemma keeps_detect (frame : Frame) : keeps Phi (detect frame).
Proof.
  unfold detect. destruct (multi_hand_landmarks frame) as [|h0 rest] eqn:E.
  - apply keeps_ret.
  - apply keeps_bind; [apply keeps_clap_phase|].
    intros [g|]; [apply keeps_ret | apply keeps_for_hands].
Qed.
End Keeps.

(** [detect] never assigns [debounce_time]: a detector built with the
    default keeps 0.5 s over any run. *)
Lemma run_debounce_time (frames : list Frame) (clock : nat -> Q) :
  debounce_time (self (run frames (fresh clock))) = default_debounce_time.
Proof.
  assert (Hrun : forall fs w,
             debounce_time (self w) = default_debounce_time ->
             debounce_time (self (run fs w)) = default_debounce_time).
  { induction fs as [|f fs IH]; intros w Hw; [exact Hw|].
    cbn. apply IH.
    apply (keeps_detect (fun s => debounce_time s = default_debounce_time));
      [| | | |exact Hw].
    - intros g. apply keeps_debounce_blind. intros s t H. exact H.
    - intros s t p H. exact H.
    - intros s H. exact H.
    - intros s d H. exact H. }
  apply Hrun. reflexivity.
Qed.

(** ** The clap history *)

Lemma push_history_length (hist : option (list Dist)) (dist : Dist) :
  length (default [] hist) <= 10 ->
  length (push_history hist dist) <= 10.
Proof.
  intros H. unfold push_history.
  destruct (10 <? length (default [] hist ++ [dist])) eqn:E.
  - rewrite length_drop, length_app. cbn. lia.
  - apply Nat.ltb_ge in E. exact E.
Qed.

Lemma push_history_room (l : list Dist) (dist : Dist) :
  length l < 10 -> push_history (Some l) dist = l ++ [dist].
Proof.
  intros H. unfold push_history.
  change (default [] (Some l)) with l.
  destruct (10 <? length (l ++ [dist])) eqn:E; [|reflexivity].
  apply Nat.ltb_lt in E. rewrite length_app in E. cbn in E. lia.
Qed.

Lemma push_history_full (l : list Dist) (dist : Dist) :
  length l = 10 -> push_history (Some l) dist = drop 1 l ++ [dist].
Proof.
  intros H. unfold push_history.
  change (default [] (Some l)) with l.
  destruct (10 <? length (l ++ [dist])) eqn:E.
  - destruct l; [discriminate H | reflexivity].
  - apply Nat.ltb_ge in E. rewrite length_app in E. cbn in E. lia.
Qed.

Lemma push_history_last (hist : option (list Dist)) (dist : Dist) :
  last (push_history hist dist) = Some dist.
Proof.
  unfold push_history. destruct (default [] hist) as [|d0 l].
  - reflexivity.
  - destruct (10 <? _).
    + cbn [app drop]. apply last_snoc.
    + apply last_snoc.
Qed.

(** The clap branch on two hands that both have a wrist point. *)
Lemma clap_branch_two_hands (frame : Frame) (w : World)
  (h1 h2 : NormalizedLandmarkList) (a b : NormalizedLandmark) :
  landmark h1 !! 0 = Some a ->
  landmark h2 !! 0 = Some b ->
  let dist := wrist_distance (fst (fst (shape frame)))
                (snd (fst (shape frame))) a b in
  let hist := push_history (clap_dist_history (self w)) dist in
  clap_branch frame [h1; h2] w =
  (if clap_candidate hist dist
   then b <- _debounce "clap_gesture" ;;
        if b then ret (Some "clap_gesture"%string) else ret None
   else ret None) (with_history hist w).
Proof.
  intros Ha Hb dist hist. unfold clap_branch.
  destruct (shape frame) as [[h wd] c] eqn:Es. munfold. cbn.
  rewrite Ha, Hb. cbn in dist. fold dist. fold hist.
  reflexivity.
Qed.

Lemma keeps_bind_from {A B} (Phi : GestureDetector -> Prop)
  (m : M A) (k : A -> M B) (w : World) :
  Phi (self (snd (m w))) ->
  (forall a, keeps Phi (k a)) ->
  Phi (self (snd (bind m k w))).
Proof.
  intros Hm Hk. unfold bind.
  destruct (m w) as [[a|e] w']; cbn in *; [apply Hk; exact Hm | exact Hm].
Qed.

Lemma keeps_debounce_history (H : option (list Dist)) (gesture : string) :
  keeps (fun s => clap_dist_history s = H) (_debounce gesture).
Proof.
  apply keeps_debounce_blind. intros s t Hs. exact Hs.
Qed.

Lemma keeps_for_hands_history (H : option (list Dist)) (frame : Frame)
  (hands : list NormalizedLandmarkList) (gesture : option string) :
  keeps (fun s => clap_dist_history s = H) (for_hands frame hands gesture).
Proof.
  apply keeps_for_hands.
  - apply keeps_debounce_history.
  - intros s t p Hs. exact Hs.
Qed.

(** On a two-hand frame whose hands have a wrist point, the history after
    [detect] is the history before with the wrist distance pushed. *)
Lemma detect_two_hands_history (frame : Frame) (w : World)
  (h1 h2 : NormalizedLandmarkList) (a b : NormalizedLandmark) :
  multi_hand_landmarks frame = [h1; h2] ->
  landmark h1 !! 0 = Some a ->
  landmark h2 !! 0 = Some b ->
  clap_dist_history (self (snd (detect frame w))) =
  Some (push_history (clap_dist_history (self w))
          (wrist_distance (fst (fst (shape frame)))
             (snd (fst (shape frame))) a b)).
Proof.
  intros Hh Ha Hb. unfold detect. rewrite Hh.
  apply (keeps_bind_from (fun s => clap_dist_history s = Some _)).
  - unfold clap_phase. cbn [length Nat.eqb].
    rewrite (clap_branch_two_hands frame w h1 h2 a b Ha Hb). cbn zeta.
    match goal with
    | |- _ (self (snd (?tail ?w1))) = Some ?h =>
        assert (Ht : keeps (fun s => clap_dist_history s = Some h) tail);
        [|apply Ht; reflexivity]
    end.
    destruct (clap_candidate _ _); [|apply keeps_ret].
    apply keeps_bind; [apply keeps_debounce_history|].
    intros []; apply keeps_ret.
  - intros [g|]; [apply keeps_ret | apply keeps_for_hands_history].
Qed.

Lemma detect_keeps_history_bound (frame : Frame) :
  keeps (fun s => length (default [] (clap_dist_history s)) <= 10)
    (detect frame).
Proof.
  apply keeps_detect.
  - intros g. apply keeps_debounce_blind. intros s t H. exact H.
  - intros s t p H. exact H.
  - intros s H. exact H.
  - intros s d H.
    change (length (push_history (clap_dist_history s) d) <= 10).
    apply push_history_length. exact H.
Qed.

(** ** C7: the bound on the clap history *)

(** C7. From a fresh detector, after any sequence of frames (so after each
    frame of any sequence of two-hand frames) the clap history holds at
    most 10 distances; a two-hand frame appends its distance at the end,
    and when the history already holds 10 it drops the oldest one. *)
Theorem clap_history_bound :
  (forall (frames : list Frame) (clock : nat -> Q) (dt : Q),
     length (history (run frames
       {| self := __init__ dt; readings := clock; ticks := 0 |})) <= 10)
  /\ (forall (frame : Frame) (w : World) (h1 h2 : NormalizedLandmarkList)
        (a b : NormalizedLandmark) (l : list Dist),
        multi_hand_landmarks frame = [h1; h2] ->
        landmark h1 !! 0 = Some a ->
        landmark h2 !! 0 = Some b ->
        clap_dist_history (self w) = Some l ->
        let dist := wrist_distance (fst (fst (shape frame)))
                      (snd (fst (shape frame))) a b in
        (length l < 10 ->
         clap_dist_history (self (snd (detect frame w))) = Some (l ++ [dist]))
        /\ (length l = 10 ->
            clap_dist_history (self (snd (detect frame w)))
            = Some (drop 1 l ++ [dist]))).
Proof.
  split.
  - intros frames clock dt.
    assert (Hrun : forall fs w, length (history w) <= 10 ->
                                length (history (run fs w)) <= 10).
    { induction fs as [|f fs IH]; intros w Hw; [exact Hw|].
      cbn. apply IH. apply (detect_keeps_history_bound f w). exact Hw. }
    apply Hrun. cbn. lia.
  - intros frame w h1 h2 a b l Hh Ha Hb Hl dist.
    rewrite (detect_two_hands_history frame w h1 h2 a b Hh Ha Hb).
    rewrite Hl. fold dist. split; intros Hlen.
    + rewrite push_history_room by exact Hlen. reflexivity.
    + rewrite push_history_full by exact Hlen. reflexivity.
Qed.

Lemma clap_history_bound_witness :
  length (history (run (ten_frames ++ [two_hands_at 205]) (fresh clock0)))
  <= 10
  /\ clap_dist_history
       (self (snd (detect (two_hands_at 205) (run ten_frames (fresh clock0)))))
     = Some (drop 1 (history (run ten_frames (fresh clock0)))
             ++ [wrist_distance 1000 1000 (point 0 0) (point (205 # 1000) 0)]).
Proof.
  split.
  - apply (proj1 clap_history_bound).
  - apply (proj2 clap_history_bound (two_hands_at 205)
             (run ten_frames (fresh clock0))
             (fist 0 0) (fist (205 # 1000) 0)
             (point 0 0) (point (205 # 1000) 0)
             (history (run ten_frames (fresh clock0)))).
    + reflexivity.
    + reflexivity.
    + reflexivity.
    + vm_compute. reflexivity.
    + vm_compute. reflexivity.
Defined.

(** ** C2: the distance fed to the clap rule *)

(** C2, as the code has it.  On a two-hand frame the distance appended to
    the clap history is the Euclidean distance between the two wrist
    landmarks (index 0), each denormalized to pixel space by the float
    products [x * w] and [y * h] (rounded to binary64) and truncated to
    integer pixel coordinates by [int]; the palm centers of
    [_get_min_distance] are not used by [detect]. *)
Theorem clap_distance_is_wrist_distance (frame : Frame) (w : World)
  (h1 h2 : NormalizedLandmarkList) (a b : NormalizedLandmark) :
  multi_hand_landmarks frame = [h1; h2] ->
  landmark h1 !! 0 = Some a ->
  landmark h2 !! 0 = Some b ->
  let h := float_of_int (fst (fst (shape frame))) in
  let wd := float_of_int (snd (fst (shape frame))) in
  let dx := (int (fmul (x b) wd) - int (fmul (x a) wd))%Z in
  let dy := (int (fmul (y b) h) - int (fmul (y a) h))%Z in
  exists hist,
    clap_dist_history (self (snd (detect frame w))) = Some hist
    /\ hist = push_history (clap_dist_history (self w)) (hypot dx dy)
    /\ last hist = Some (hypot dx dy)
    /\ radicand (hypot dx dy) = inject_Z (dx * dx + dy * dy).
Proof.
  intros Hh Ha Hb h wd dx dy.
  exists (push_history (clap_dist_history (self w)) (hypot dx dy)).
  split; [|split; [reflexivity | split; [apply push_history_last|]]].
  - rewrite (detect_two_hands_history frame w h1 h2 a b Hh Ha Hb).
    reflexivity.
  - reflexivity.
Qed.

Lemma clap_distance_is_wrist_distance_witness :
  exists hist,
    clap_dist_history (self (snd (detect double_wrists (fresh clock0))))
    = Some hist
    /\ hist = push_history None (hypot 210 0)
    /\ last hist = Some (hypot 210 0)
    /\ radicand (hypot 210 0) = inject_Z 44100.
Proof.
  exact (clap_distance_is_wrist_distance double_wrists (fresh clock0)
           (fist 0 0) (fist (round64 (21 # 100)) 0)
           (point 0 0) (point (round64 (21 # 100)) 0)
           eq_refl eq_refl eq_refl).
Defined.

(** The rounding of the product decides the pixel: for the binary64 value
    nearest to 0.21 and a width of 1000 the code's product is 210.0, while
    the exact product lies below 210. *)
Lemma wrist_pixel_of_rounded_product :
  int (fmul (round64 (21 # 100)) (float_of_int 1000)) = 210%Z
  /\ int (round64 (21 # 100) * inject_Z 1000) = 209%Z.
Proof.
  split; vm_compute; reflexivity.
Qed.

(** The claim as the specification words it fails: on [slanted_hands] the
    distance appended to the history is the wrist distance, 320 px, while
    the distance between the palm centers (the midpoints of wrist and
    middle-finger base, which [_get_min_distance] computes) is 240 px. *)
Lemma clap_distance_not_palm_distance :
  history (snd (detect slanted_hands (fresh clock0))) = [px 320]
  /\ (exists d,
        fst (_get_min_distance (multi_hand_landmarks slanted_hands)
               (shape slanted_hands) (fresh clock0)) = Return (Some d)
        /\ dist_eq d (px 240))
  /\ ~ dist_eq (px 320) (px 240).
Proof.
  split; [vm_compute; reflexivity|]. split.
  - eexists. split; [vm_compute; reflexivity|]. vm_compute. reflexivity.
  - intros H. vm_compute in H. discriminate H.
Qed.

(** ** C6: the clap candidate rule *)

Lemma existsb_far (l : list Dist) :
  existsb (fun d => dist_gt d 200) l = true <->
  exists d, d ∈ l /\ (inject_Z (200 * 200) < radicand d)%Q.
Proof.
  rewrite existsb_exists. split.
  - intros (d & Hin & Hd). exists d. split; [apply list_elem_of_In; exact Hin|].
    unfold dist_gt in Hd. cbn [Z.ltb Z.compare orb] in Hd.
    apply Qltb_lt in Hd. exact Hd.
  - intros (d & Hin & Hd). exists d. split; [apply list_elem_of_In; exact Hin|].
    unfold dist_gt. cbn [Z.ltb Z.compare orb]. apply Qltb_lt. exact Hd.
Qed.

(** C6, as the code has it.  On a two-hand frame with wrist distance [d]
    the history becomes [hist], the old one with [d] pushed, and the gate
    is asked for a clap exactly when some entry of [hist] but its last two
    exceeds 200 and [d < 120].  Fed to a fresh detector, the distances of
    scenario A raise a candidate on the last two frames, those at 115 and
    at 90 (115 is already below 120), and on no earlier one; [detect]
    returns the clap on the frame at 115 and the gate refuses the one at
    90, which comes within the debounce time. *)
Theorem clap_candidate_rule :
  (forall (frame : Frame) (w : World) (h1 h2 : NormalizedLandmarkList)
     (a b : NormalizedLandmark),
      landmark h1 !! 0 = Some a ->
      landmark h2 !! 0 = Some b ->
      let d := wrist_distance (fst (fst (shape frame)))
                 (snd (fst (shape frame))) a b in
      let hist := push_history (clap_dist_history (self w)) d in
      clap_phase frame [h1; h2] w =
      (if clap_candidate hist d
       then b <- _debounce "clap_gesture" ;;
            if b then ret (Some "clap_gesture"%string) else ret None
       else ret None) (with_history hist w))
  /\ (forall (hist : list Dist) (d : Dist),
        clap_candidate hist d = true <->
        (exists e, e ∈ take (length hist - 2) hist
                   /\ (inject_Z (200 * 200) < radicand e)%Q)
        /\ (radicand d < inject_Z (120 * 120))%Q)
  /\ feed None (map px scenario_A)
     = [false; false; false; false; false; false; true; true]
  /\ fst (detect_all (map two_hands_at scenario_A) (fresh clock0))
     = [Return None; Return None; Return None; Return None; Return None;
        Return None; Return (Some "clap_gesture"%string); Return None].
Proof.
  split; [|split; [|split]].
  - intros frame w h1 h2 a b Ha Hb d hist.
    unfold clap_phase. cbn [length Nat.eqb].
    apply (clap_branch_two_hands frame w h1 h2 a b Ha Hb).
  - intros hist d. unfold clap_candidate, was_far.
    rewrite andb_true_iff, existsb_far.
    unfold dist_lt. cbn [Z.ltb Z.compare andb]. rewrite Qltb_lt. tauto.
  - vm_compute. reflexivity.
  - vm_compute. reflexivity.
Qed.

Lemma clap_candidate_rule_witness :
  fst (clap_phase (two_hands_at 90) [fist 0 0; fist (90 # 1000) 0]
         (run (map two_hands_at [250; 230; 210]%Z) (fresh clock0)))
  = Return (Some "clap_gesture"%string).
Proof.
  rewrite (proj1 clap_candidate_rule (two_hands_at 90)
             (run (map two_hands_at [250; 230; 210]%Z) (fresh clock0))
             (fist 0 0) (fist (90 # 1000) 0)
             (point 0 0) (point (90 # 1000) 0) eq_refl eq_refl).
  vm_compute. reflexivity.
Defined.

(** The claim as the specification words it fails: in scenario A the
    candidate is not raised on the frame at 90 only.  The frame at 115 (the
    seventh) raises one already, and [detect] returns the clap there. *)
Lemma clap_candidate_at_115 :
  scenario_A !! 6 = Some 115%Z
  /\ feed None (map px scenario_A) !! 6 = Some true
  /\ fst (detect_all (map two_hands_at scenario_A) (fresh clock0)) !! 6
     = Some (Return (Some "clap_gesture"%string)).
Proof.
  repeat split; vm_compute; reflexivity.
Qed.

(** ** The loop over the hands *)

Lemma get_fingers_world (handLms : NormalizedLandmarkList) (w : World) :
  get_fingers handLms w = (fst (get_fingers handLms w), w).
Proof.
  unfold get_fingers, tips. cbn [drop other_fingers]. munfold.
  repeat match goal with
         | |- context [landmark handLms !! ?i] =>
             destruct (landmark handLms !! i)
         end; reflexivity.
Qed.

(** The incoming value of [gesture] only matters when the hand yields no
    candidate: then it is passed on. *)
Lemma bind_unfold {A B} (m : M A) (k : A -> M B) (w : World) :
  bind m k w =
  match m w with
  | (Return a, w') => k a w'
  | (Raise e, w') => (Raise e, w')
  end.
Proof. reflexivity. Qed.

Lemma outcome_pair {A} (p : Outcome A * World) (a : A) :
  fst p = Return a -> p = (Return a, snd p).
Proof. destruct p as [o w]. cbn. intros ->. reflexivity. Qed.

Lemma hand_body_gesture (frame : Frame) (handLms : NormalizedLandmarkList)
  (gesture : option string) (w : World) :
  hand_body frame handLms gesture w =
  match hand_body frame handLms None w with
  | (Return None, w') => (Return gesture, w')
  | r => r
  end.
Proof.
  unfold hand_body. rewrite !bind_unfold.
  destruct (get_fingers handLms w) as [[fingers|e] w1]; [|reflexivity].
  rewrite !bind_unfold.
  destruct (bool_decide (fingers = [1; 0; 0; 0; 0]%Z)) eqn:E1.
  - apply bool_decide_eq_true in E1. subst fingers.
    rewrite bool_decide_eq_false_2 by discriminate.
    rewrite !bind_unfold, debounce_unfold. cbn zeta.
    destruct (Qltb _ _); reflexivity.
  - cbn [ret].
    destruct (bool_decide (fingers = [1; 1; 1; 1; 1]%Z)); [|reflexivity].
    unfold wave_detection. rewrite !bind_unfold. cbn [get_self].
    destruct (wave (self w1)) as [wv|].
    + rewrite !bind_unfold. cbn [time_time].
      destruct (Qltb _ _).
      * rewrite !bind_unfold. unfold getitem.
        destruct (landmark handLms !! 0); [|reflexivity]. cbn zeta.
        destruct (Qltb _ _); [|reflexivity].
        rewrite !bind_unfold, debounce_unfold. cbn zeta.
        destruct (Qltb _ _); reflexivity.
      * munfold. cbn. destruct (landmark handLms !! 0); reflexivity.
    + munfold. cbn. destruct (landmark handLms !! 0); reflexivity.
Qed.

Lemma for_hands_app (frame : Frame) (hs1 hs2 : list NormalizedLandmarkList)
  (gesture : option string) (w : World) :
  for_hands frame (hs1 ++ hs2) gesture w =
  (g <- for_hands frame hs1 gesture ;; for_hands frame hs2 g) w.
Proof.
  revert gesture w. induction hs1 as [|h hs1 IH]; intros gesture w.
  - reflexivity.
  - cbn [app for_hands]. rewrite !bind_unfold.
    destruct (hand_body frame h gesture w) as [[g|e] w1].
    + rewrite IH. reflexivity.
    + reflexivity.
Qed.

(** Once a candidate is recorded, the loop never ends with none. *)
Lemma for_hands_some (frame : Frame) (hs : list NormalizedLandmarkList)
  (k : string) (w : World) :
  fst (for_hands frame hs (Some k) w) <> Return None.
Proof.
  revert k w. induction hs as [|h hs IH]; intros k w.
  - cbn. discriminate.
  - cbn [for_hands]. rewrite bind_unfold, hand_body_gesture.
    destruct (hand_body frame h None w) as [[[k'|]|e] w1].
    + apply IH.
    + apply IH.
    + cbn. discriminate.
Qed.

(** Hands that yield no candidate pass the recorded one on. *)
Lemma for_hands_no_candidate (frame : Frame)
  (hs : list NormalizedLandmarkList) (w w' : World) :
  for_hands frame hs None w = (Return None, w') ->
  forall gesture, for_hands frame hs gesture w = (Return gesture, w').
Proof.
  revert w. induction hs as [|h hs IH]; intros w H gesture.
  - cbn [for_hands] in *. unfold ret in *.
    injection H as ->. reflexivity.
  - cbn [for_hands] in *. rewrite bind_unfold in *.
    rewrite hand_body_gesture.
    destruct (hand_body frame h None w) as [[[k'|]|e] w1].
    + exfalso. apply (for_hands_some frame hs k' w1). rewrite H. reflexivity.
    + apply IH. exact H.
    + discriminate H.
Qed.

(** ** C3: which hand's candidate is returned *)

(** C3, as the code has it.  [gesture] is overwritten by every hand that
    yields a debounce-allowed candidate, so [detect] returns the candidate
    of the last such hand in the provider's order.  Stated for a hand [h]
    at any position: when the clap phase falls through, the hands before
    [h] are classified (whatever they recorded, [g1]), [h] yields [k] and no
    hand after [h] yields a candidate, [detect] returns [k]. *)
Theorem last_qualifying_hand_wins (frame : Frame) (w w0 w1 w2 w3 : World)
  (hs1 hs2 : list NormalizedLandmarkList) (h : NormalizedLandmarkList)
  (g1 : option string) (k : string) :
  multi_hand_landmarks frame = hs1 ++ h :: hs2 ->
  clap_phase frame (multi_hand_landmarks frame) w = (Return None, w0) ->
  for_hands frame hs1 None w0 = (Return g1, w1) ->
  hand_body frame h None w1 = (Return (Some k), w2) ->
  for_hands frame hs2 None w2 = (Return None, w3) ->
  detect frame w = (Return (Some k), w3).
Proof.
  intros Hh Hclap H1 Hk H2. unfold detect.
  destruct (multi_hand_landmarks frame) as [|h0 rest] eqn:E.
  { destruct hs1; discriminate Hh. }
  rewrite bind_unfold, Hclap, Hh.
  rewrite for_hands_app, bind_unfold, H1.
  cbn [for_hands]. rewrite bind_unfold, hand_body_gesture, Hk.
  apply (for_hands_no_candidate frame hs2 w2 w3 H2).
Qed.

Lemma last_qualifying_hand_wins_witness :
  fst (detect thumb_then_wave after_open_hand) = Return (Some "wave"%string).
Proof.
  rewrite (last_qualifying_hand_wins thumb_then_wave after_open_hand
             (snd (clap_phase thumb_then_wave
                     (multi_hand_landmarks thumb_then_wave) after_open_hand))
             (snd (for_hands thumb_then_wave
                     [thumbs_up_hand (1 # 10) (1 # 2)] None
                     (snd (clap_phase thumb_then_wave
                             (multi_hand_landmarks thumb_then_wave)
                             after_open_hand))))
             (snd (detect thumb_then_wave after_open_hand))
             (snd (detect thumb_then_wave after_open_hand))
             [thumbs_up_hand (1 # 10) (1 # 2)] [] (open_hand (1 # 2) (1 # 2))
             (Some "thumbs_up"%string) "wave"%string).
  - reflexivity.
  - reflexivity.
  - apply outcome_pair. vm_compute. reflexivity.
  - apply outcome_pair. vm_compute. reflexivity.
  - apply outcome_pair. vm_compute. reflexivity.
  - reflexivity.
Defined.

(** The claim as the specification words it fails: on [thumb_then_wave]
    the first hand yields a debounce-allowed [thumbs_up], the second a
    debounce-allowed [wave], and [detect] returns the second hand's. *)
Lemma later_hand_displaces_first :
  fst (for_hands thumb_then_wave [thumbs_up_hand (1 # 10) (1 # 2)] None
         (snd (clap_phase thumb_then_wave
                 (multi_hand_landmarks thumb_then_wave) after_open_hand)))
  = Return (Some "thumbs_up"%string)
  /\ fst (detect thumb_then_wave after_open_hand)
     = Return (Some "wave"%string).
Proof.
  split; vm_compute; reflexivity.
Qed.

(** ** C4: the wave tracker when it raises a candidate *)

Lemma keeps_debounce_wave (o : option WaveTrack) (gesture : string) :
  keeps (fun s => wave s = o) (_debounce gesture).
Proof.
  apply keeps_debounce_blind. intros s t Hs. exact Hs.
Qed.

(** An open hand within the window whose travel, as the code computes it,
    is above 60: the body asks the gate for a wave. *)
Lemma hand_body_open_travel (frame : Frame) (h : NormalizedLandmarkList)
  (gesture : option string) (w : World) (wv : WaveTrack)
  (l0 : NormalizedLandmark) :
  fst (get_fingers h w) = Return [1; 1; 1; 1; 1]%Z ->
  wave (self w) = Some wv ->
  landmark h !! 0 = Some l0 ->
  (readings w (ticks w) - wave_prev_time wv < 1)%Q ->
  (60 < movement frame (x l0) (wave_start_pos wv))%Q ->
  hand_body frame h gesture w =
  (b <- _debounce "wave" ;;
   if b then ret (Some "wave"%string) else ret gesture) (tick w).
Proof.
  intros Hf Hw Hl0 Ht Hm.
  unfold hand_body. rewrite bind_unfold, get_fingers_world, Hf.
  rewrite bool_decide_eq_false_2 by discriminate.
  rewrite bind_unfold. cbn [ret].
  rewrite bool_decide_eq_true_2 by reflexivity.
  unfold wave_detection. rewrite bind_unfold. cbn [get_self].
  rewrite Hw. rewrite bind_unfold. cbn [time_time].
  rewrite (proj2 (Qltb_lt _ _) Ht).
  rewrite bind_unfold. unfold getitem. cbn [self]. rewrite Hl0. cbn zeta.
  rewrite (proj2 (Qltb_lt _ _) Hm). reflexivity.
Qed.

(** C4, as the code has it.  With tracking state [wv], an open hand read at
    a clock value less than 1.0 s after [wave_prev_time], and a travel
    [abs(wrist.x - wave_start_pos) * frame_width], computed in binary64 as
    the code computes it, above 60, the body of the loop asks the gate for
    a wave (the candidate is raised: [gesture] becomes [wave] when the gate
    allows it) and leaves the tracking state as it is: [wave_prev_time] and
    [wave_start_pos] are not reseeded. *)
Theorem wave_candidate_keeps_reference (frame : Frame)
  (h : NormalizedLandmarkList) (gesture : option string) (w : World)
  (wv : WaveTrack) (l0 : NormalizedLandmark) :
  fst (get_fingers h w) = Return [1; 1; 1; 1; 1]%Z ->
  wave (self w) = Some wv ->
  landmark h !! 0 = Some l0 ->
  (readings w (ticks w) - wave_prev_time wv < 1)%Q ->
  (60 < movement frame (x l0) (wave_start_pos wv))%Q ->
  hand_body frame h gesture w =
  (b <- _debounce "wave" ;;
   if b then ret (Some "wave"%string) else ret gesture) (tick w)
  /\ wave (self (snd (hand_body frame h gesture w))) = Some wv.
Proof.
  intros Hf Hw Hl0 Ht Hm.
  pose proof (hand_body_open_travel frame h gesture w wv l0
                Hf Hw Hl0 Ht Hm) as Hb.
  split; [exact Hb|]. rewrite Hb.
  apply (keeps_bind_from (fun s => wave s = Some wv)).
  - apply keeps_debounce_wave. exact Hw.
  - intros []; apply keeps_ret.
Qed.

Lemma wave_candidate_keeps_reference_witness :
  fst (hand_body sweep (open_hand (1 # 2) (1 # 2)) None after_open_hand)
  = Return (Some "wave"%string)
  /\ wave (self (snd (hand_body sweep (open_hand (1 # 2) (1 # 2)) None
                        after_open_hand)))
     = Some {| wave_prev_time := 1000 + 0 / 100; wave_start_pos := 3 # 10 |}.
Proof.
  destruct (wave_candidate_keeps_reference sweep (open_hand (1 # 2) (1 # 2))
              None after_open_hand
              {| wave_prev_time := 1000 + 0 / 100; wave_start_pos := 3 # 10 |}
              (point (1 # 2) (1 # 2))) as [H1 H2].
  - vm_compute. reflexivity.
  - reflexivity.
  - reflexivity.
  - vm_compute. reflexivity.
  - vm_compute. reflexivity.
  - split; [|exact H2]. rewrite H1. vm_compute. reflexivity.
Defined.

(** The claim as the specification words it fails: on [sweep] the wave is
    raised and returned, and the tracking state is still the one seeded by
    the first open hand (x = 0.3), not the current position (x = 0.5) and
    time. *)
Lemma wave_reference_not_reseeded :
  fst (detect sweep after_open_hand) = Return (Some "wave"%string)
  /\ (x <$> landmark (open_hand (1 # 2) (1 # 2)) !! 0) = Some (1 # 2)
  /\ wave (self (snd (detect sweep after_open_hand)))
     = wave (self after_open_hand)
  /\ (wave_start_pos <$> wave (self (snd (detect sweep after_open_hand))))
     = Some (3 # 10).
Proof.
  repeat split; vm_compute; reflexivity.
Qed.

(** The travel is the one the code computes: from the binary64 value
    nearest to 0.04 to the one nearest to 0.13375, on a width of 640, the
    difference rounds to 0.09375 and the travel is 60.0, not above 60,
    although the exact product is above 60; no candidate is raised. *)
Lemma travel_of_rounded_difference :
  movement (frame_of []) (round64 (13375 # 100000)) (round64 (4 # 100)) == 60
  /\ (60 < Qabs (round64 (13375 # 100000) - round64 (4 # 100)) * 640)%Q
  /\ fst (detect (frame_of [open_hand (round64 (13375 # 100000)) (1 # 2)])
            (run [frame_of [open_hand (round64 (4 # 100)) (1 # 2)]]
               (fresh clock0)))
     = Return None.
Proof.
  repeat split; vm_compute; reflexivity.
Qed.

(** ** C8: skeletons that do not have 21 points *)

Lemma get_fingers_short (h : NormalizedLandmarkList) (w : World) :
  length (landmark h) < 21 ->
  fst (get_fingers h w) = Raise IndexError.
Proof.
  intros Hlen. unfold get_fingers, tips.
  cbn [drop other_fingers Nat.sub]. munfold.
  repeat match goal with
         | |- context [landmark h !! ?i] =>
             destruct (landmark h !! i) eqn:?
         end; try reflexivity.
  exfalso.
  match goal with
  | H : landmark h !! 20 = Some _ |- _ => apply lookup_lt_Some in H; lia
  end.
Qed.

Lemma get_fingers_long (h : NormalizedLandmarkList) (w : World) :
  21 <= length (landmark h) ->
  exists fingers, get_fingers h w = (Return fingers, w).
Proof.
  intros Hlen. unfold get_fingers, tips.
  cbn [drop other_fingers Nat.sub]. munfold.
  repeat match goal with
         | |- context [landmark h !! ?i] =>
             let v := fresh "v" in
             let Hv := fresh "Hv" in
             destruct (lookup_lt_is_Some_2 (landmark h) i) as [v Hv];
             [lia|]; rewrite Hv
         end.
  eexists. reflexivity.
Qed.

Lemma getitem_take {A} (l : list A) (n i : nat) :
  i < n -> getitem (take n l) i = getitem l i.
Proof.
  intros H. unfold getitem. rewrite lookup_take_lt by exact H. reflexivity.
Qed.

Lemma hand_body_first_21 (frame : Frame) (h : NormalizedLandmarkList)
  (gesture : option string) :
  hand_body frame {| landmark := take 21 (landmark h) |} gesture
  = hand_body frame h gesture.
Proof.
  unfold hand_body, wave_detection, get_fingers, tips.
  cbn [drop other_fingers Nat.sub landmark].
  rewrite !getitem_take by lia. reflexivity.
Qed.

Lemma hand_body_short (frame : Frame) (h : NormalizedLandmarkList)
  (gesture : option string) (w : World) :
  length (landmark h) < 21 ->
  fst (hand_body frame h gesture w) = Raise IndexError.
Proof.
  intros Hlen. unfold hand_body. rewrite bind_unfold, get_fingers_world.
  rewrite (get_fingers_short h w Hlen). reflexivity.
Qed.

Lemma for_hands_short (frame : Frame) (hs : list NormalizedLandmarkList)
  (h : NormalizedLandmarkList) (gesture : option string) (w : World) :
  h ∈ hs ->
  length (landmark h) < 21 ->
  fst (for_hands frame hs gesture w) = Raise IndexError.
Proof.
  intros Hin Hlen. revert gesture w.
  induction hs as [|h' hs IH]; intros gesture w.
  - inversion Hin.
  - cbn [for_hands]. rewrite bind_unfold.
    destruct (hand_body frame h' gesture w) as [[g|[]] w1] eqn:E.
    + apply elem_of_cons in Hin as [->|Hin].
      * pose proof (hand_body_short frame h' gesture w Hlen) as Hs.
        rewrite E in Hs. discriminate Hs.
      * apply IH. exact Hin.
    + reflexivity.
Qed.

Lemma clap_branch_outcome (frame : Frame)
  (hands : list NormalizedLandmarkList) (w : World) :
  match fst (clap_branch frame hands w) with
  | Return (Some g) => g = "clap_gesture"%string
  | _ => True
  end.
Proof.
  unfold clap_branch. destruct (shape frame) as [[h wd] c].
  repeat (rewrite bind_unfold;
          match goal with
          | |- context [getitem ?l ?i w] =>
              unfold getitem at 1; destruct (l !! i)
          end; [|exact I]).
  cbn zeta. rewrite bind_unfold. cbn [get_self].
  rewrite bind_unfold. cbn [modify_self bind get_self put_self].
  destruct (clap_candidate _ _); [|exact I].
  rewrite bind_unfold, debounce_unfold. cbn zeta.
  destruct (Qltb _ _); [reflexivity | exact I].
Qed.

(** C8, as the code has it.  [detect] has no check on the number of points.
    A hand with fewer than 21 points makes its classification raise
    [IndexError] (the landmark access out of range), so the frame raises,
    unless the two-hand clap check, which reads the wrists only, returns
    [clap_gesture] first; with a hand count other than 2 the frame always
    raises.  A hand with 21 points or more raises nothing in its finger
    classification, which reads the first 21 points only. *)
Theorem malformed_skeleton :
  (forall (frame : Frame) (w : World) (h : NormalizedLandmarkList),
     h ∈ multi_hand_landmarks frame ->
     length (landmark h) < 21 ->
     (fst (detect frame w) = Raise IndexError
      \/ fst (detect frame w) = Return (Some "clap_gesture"%string))
     /\ (length (multi_hand_landmarks frame) <> 2 ->
         fst (detect frame w) = Raise IndexError))
  /\ (forall (frame : Frame) (w : World) (h : NormalizedLandmarkList)
        (gesture : option string),
        21 <= length (landmark h) ->
        (exists fingers, get_fingers h w = (Return fingers, w))
        /\ hand_body frame h gesture w
           = hand_body frame {| landmark := take 21 (landmark h) |}
               gesture w).
Proof.
  split.
  - intros frame w h Hin Hlen. unfold detect.
    destruct (multi_hand_landmarks frame) as [|h0 rest] eqn:E;
      [inversion Hin|].
    rewrite bind_unfold. unfold clap_phase.
    destruct (length (h0 :: rest) =? 2) eqn:E2.
    + split; [|intros Hne; apply Nat.eqb_eq in E2; contradiction].
      pose proof (clap_branch_outcome frame (h0 :: rest) w) as H.
      destruct (clap_branch frame (h0 :: rest) w) as [[[g|]|[]] w1];
        cbn in H.
      * right. cbn. congruence.
      * left. apply (for_hands_short frame (h0 :: rest) h None w1 Hin Hlen).
      * left. reflexivity.
    + rewrite bind_unfold. cbn [modify_self bind get_self put_self ret].
      assert (Hr := for_hands_short frame (h0 :: rest) h None
                      {| self := set_clap_reset (self w);
                         readings := readings w; ticks := ticks w |}
                      Hin Hlen).
      split; [left|intros _]; exact Hr.
  - intros frame w h gesture Hlen. split.
    + apply get_fingers_long. exact Hlen.
    + rewrite hand_body_first_21. reflexivity.
Qed.

Lemma malformed_skeleton_witness :
  fst (detect (frame_of [short_thumb]) (fresh clock0)) = Raise IndexError
  /\ exists fingers,
       get_fingers long_thumb (fresh clock0)
       = (Return fingers, fresh clock0).
Proof.
  split.
  - apply (proj1 malformed_skeleton (frame_of [short_thumb]) (fresh clock0)
             short_thumb).
    + apply list_elem_of_here.
    + vm_compute. lia.
    + vm_compute. discriminate.
  - apply (proj2 malformed_skeleton (frame_of [long_thumb]) (fresh clock0)
             long_thumb None).
    vm_compute. lia.
Defined.

(** The claim as the specification words it fails: a hand with 22 points is
    classified and [thumbs_up] is returned; and after two hands seen far
    apart, two hands of a single point each, seen close, are reported as a
    clap.  Neither frame raises. *)
Lemma malformed_skeleton_classified :
  length (landmark long_thumb) = 22
  /\ fst (detect (frame_of [long_thumb]) (fresh clock0))
     = Return (Some "thumbs_up"%string)
  /\ fst (detect two_stubs
            (run (map two_hands_at [250; 230]%Z) (fresh clock0)))
     = Return (Some "clap_gesture"%string).
Proof.
  repeat split; vm_compute; reflexivity.
Qed.

(** ** C10: a displaced candidate still takes its debounce slot *)

Lemma keeps_debounce_slot (k : string) (t : Q) (gesture : string) :
  keeps (slot_taken k t) (_debounce gesture).
Proof.
  intros w [Hdt (t' & Ht' & Hle)]. rewrite debounce_unfold. cbn zeta.
  destruct (Qltb _ _) eqn:E; unfold slot_taken, tick;
    cbn [snd self last_gesture_time debounce_time set_last_gesture_time];
    [|split; [exact Hdt | eauto]].
  split; [exact Hdt|]. apply Qltb_lt in E.
  destruct (decide (gesture = k)) as [->|Hne].
  - rewrite lookup_insert_eq. eexists. split; [reflexivity|].
    rewrite Ht' in E. cbn in E. lra.
  - rewrite lookup_insert_ne by exact Hne. eauto.
Qed.

Lemma keeps_for_hands_slot (k : string) (t : Q) (frame : Frame)
  (hands : list NormalizedLandmarkList) (gesture : option string) :
  keeps (slot_taken k t) (for_hands frame hands gesture).
Proof.
  apply keeps_for_hands.
  - apply keeps_debounce_slot.
  - intros s t0 p Hs. exact Hs.
Qed.

Lemma keeps_debounce_time_clap_phase (frame : Frame)
  (hands : list NormalizedLandmarkList) :
  keeps (fun s => (0 <= debounce_time s)%Q) (clap_phase frame hands).
Proof.
  apply keeps_clap_phase.
  - intros g. apply keeps_debounce_blind. intros s t H. exact H.
  - intros s H. exact H.
  - intros s d H. exact H.
Qed.

Lemma keeps_debounce_time_for_hands (frame : Frame)
  (hands : list NormalizedLandmarkList) (gesture : option string) :
  keeps (fun s => (0 <= debounce_time s)%Q) (for_hands frame hands gesture).
Proof.
  apply keeps_for_hands.
  - intros g. apply keeps_debounce_blind. intros s t H. exact H.
  - intros s t p H. exact H.
Qed.

(** A thumbs-up hand whose candidate passes the gate. *)
Lemma hand_body_thumbs_up (frame : Frame) (h : NormalizedLandmarkList)
  (gesture : option string) (w : World) :
  fst (get_fingers h w) = Return [1; 0; 0; 0; 0]%Z ->
  fst (_debounce "thumbs_up" w) = Return true ->
  hand_body frame h gesture w
  = (Return (Some "thumbs_up"%string), snd (_debounce "thumbs_up" w)).
Proof.
  intros Hf Hg. unfold hand_body.
  rewrite bind_unfold, get_fingers_world, Hf.
  rewrite bool_decide_eq_true_2 by reflexivity.
  rewrite !bind_unfold. rewrite (outcome_pair _ _ Hg).
  rewrite bool_decide_eq_false_2 by discriminate. reflexivity.
Qed.

(** C10.  When, in the loop over the hands, a candidate of kind [k] passes
    the gate at clock value [t] (a thumbs-up hand, or an open hand within
    the window whose travel is above 60), the table entry of [k] is [t]
    right after that hand; at the end of the frame it is still a time not
    before [t], whatever [detect] returns for the frame (another hand's
    event of another kind, or an exception); so [k] is refused at every
    clock value up to [t + debounce_time]. *)
Theorem gate_slot_consumed (frame : Frame) (w w0 w1 : World)
  (hs1 hs2 : list NormalizedLandmarkList) (h : NormalizedLandmarkList)
  (g1 : option string) (k : string) (t : Q) :
  (0 <= debounce_time (self w))%Q ->
  multi_hand_landmarks frame = hs1 ++ h :: hs2 ->
  clap_phase frame (multi_hand_landmarks frame) w = (Return None, w0) ->
  for_hands frame hs1 None w0 = (Return g1, w1) ->
  (k = "thumbs_up"%string
   /\ fst (get_fingers h w1) = Return [1; 0; 0; 0; 0]%Z
   /\ fst (_debounce "thumbs_up" w1) = Return true
   /\ t = readings w1 (ticks w1))
  \/ (k = "wave"%string
      /\ fst (get_fingers h w1) = Return [1; 1; 1; 1; 1]%Z
      /\ (exists wv l0,
            wave (self w1) = Some wv
            /\ landmark h !! 0 = Some l0
            /\ (readings w1 (ticks w1) - wave_prev_time wv < 1)%Q
            /\ (60 < movement frame (x l0) (wave_start_pos wv))%Q)
      /\ fst (_debounce "wave" (tick w1)) = Return true
      /\ t = readings w1 (S (ticks w1))) ->
  let w' := snd (detect frame w) in
  last_gesture_time (self (snd (hand_body frame h g1 w1))) !! k = Some t
  /\ (exists t', last_gesture_time (self w') !! k = Some t'
                 /\ (t <= t')%Q)
  /\ (forall w'' : World,
        self w'' = self w' ->
        (readings w'' (ticks w'') - t <= debounce_time (self w''))%Q ->
        fst (_debounce k w'') = Return false).
Proof.
  intros Hdt Hh Hclap H1 Hpass w'.
  assert (Hdt1 : (0 <= debounce_time (self w1))%Q).
  { pose proof (keeps_debounce_time_for_hands frame hs1 None w0) as K1.
    rewrite H1 in K1. apply K1.
    pose proof (keeps_debounce_time_clap_phase frame
                  (multi_hand_landmarks frame) w Hdt) as K0.
    rewrite Hclap in K0. exact K0. }
  (* the world [wk] in which the gate is asked for [k] *)
  assert (Hgate : exists wk,
             self wk = self w1
             /\ t = readings wk (ticks wk)
             /\ fst (_debounce k wk) = Return true
             /\ hand_body frame h g1 w1
                = (Return (Some k), snd (_debounce k wk))).
  { destruct Hpass as [(-> & Hf & Hg & ->)
                      |(-> & Hf & (wv & l0 & Hw & Hl0 & Hwin & Htr) & Hg & ->)].
    - exists w1. split; [reflexivity|]. split; [reflexivity|].
      split; [exact Hg|]. apply hand_body_thumbs_up; assumption.
    - exists (tick w1). split; [reflexivity|]. split; [reflexivity|].
      split; [exact Hg|].
      rewrite (hand_body_open_travel frame h g1 w1 wv l0 Hf Hw Hl0 Hwin Htr).
      rewrite bind_unfold, (outcome_pair _ _ Hg). reflexivity. }
  destruct Hgate as (wk & Hself & Ht & Hg & Hb).
  pose proof (debounce_true_table k wk Hg) as Htab. rewrite <- Ht in Htab.
  assert (Hslot : slot_taken k t (self (snd (_debounce k wk)))).
  { split.
    - apply (keeps_debounce_blind (fun s => (0 <= debounce_time s)%Q));
        [intros s t0 H; exact H | rewrite Hself; exact Hdt1].
    - exists t. rewrite Htab, lookup_insert_eq.
      split; [reflexivity | apply Qle_refl]. }
  assert (Hend : slot_taken k t (self w')).
  { unfold w', detect.
    destruct (multi_hand_landmarks frame) as [|h0 rest] eqn:E.
    { destruct hs1; discriminate Hh. }
    rewrite bind_unfold, Hclap, Hh, for_hands_app, bind_unfold, H1.
    cbn [for_hands]. rewrite bind_unfold, Hb.
    apply keeps_for_hands_slot. exact Hslot. }
  split; [|split].
  - rewrite Hb. cbn [snd]. rewrite Htab. apply lookup_insert_eq.
  - exact (proj2 Hend).
  - intros w'' Hs Hnow. rewrite debounce_unfold. cbn zeta.
    destruct Hend as [_ (t' & Ht' & Hle)].
    rewrite Hs, Ht'. change (default 0%Q (Some t')) with t'.
    rewrite Hs in Hnow.
    destruct (Qltb _ _) eqn:E; [|reflexivity].
    apply Qltb_lt in E. exfalso. lra.
Qed.

Lemma gate_slot_consumed_witness :
  (fst (detect thumb_then_wave after_open_hand) = Return (Some "wave"%string)
   /\ fst (_debounce "thumbs_up"
             (snd (detect thumb_then_wave after_open_hand)))
      = Return false)
  /\ (fst (detect wave_then_thumb after_open_hand)
      = Return (Some "thumbs_up"%string)
      /\ fst (_debounce "wave" (snd (detect wave_then_thumb after_open_hand)))
         = Return false).
Proof.
  split.
  - destruct (gate_slot_consumed thumb_then_wave after_open_hand
                (snd (clap_phase thumb_then_wave
                        (multi_hand_landmarks thumb_then_wave)
                        after_open_hand))
                (snd (clap_phase thumb_then_wave
                        (multi_hand_landmarks thumb_then_wave)
                        after_open_hand))
                [] [open_hand (1 # 2) (1 # 2)]
                (thumbs_up_hand (1 # 10) (1 # 2)) None "thumbs_up"
                (readings after_open_hand (ticks after_open_hand)))
      as (_ & _ & H3).
    + vm_compute. discriminate.
    + reflexivity.
    + apply outcome_pair. vm_compute. reflexivity.
    + reflexivity.
    + left. split; [reflexivity|]. split; [vm_compute; reflexivity|].
      split; [vm_compute; reflexivity | reflexivity].
    + split; [vm_compute; reflexivity|].
      apply H3; [reflexivity|]. vm_compute. discriminate.
  - destruct (gate_slot_consumed wave_then_thumb after_open_hand
                (snd (clap_phase wave_then_thumb
                        (multi_hand_landmarks wave_then_thumb)
                        after_open_hand))
                (snd (clap_phase wave_then_thumb
                        (multi_hand_landmarks wave_then_thumb)
                        after_open_hand))
                [] [thumbs_up_hand (1 # 10) (1 # 2)]
                (open_hand (1 # 2) (1 # 2)) None "wave"
                (readings after_open_hand (S (ticks after_open_hand))))
      as (_ & _ & H3).
    + vm_compute. discriminate.
    + reflexivity.
    + apply outcome_pair. vm_compute. reflexivity.
    + reflexivity.
    + right. split; [reflexivity|]. split; [vm_compute; reflexivity|].
      split; [|split; [vm_compute; reflexivity | reflexivity]].
      exists {| wave_prev_time := clock0 0; wave_start_pos := 3 # 10 |},
             (point (1 # 2) (1 # 2)).
      split; [vm_compute; reflexivity|]. split; [reflexivity|].
      split; vm_compute; reflexivity.
    + split; [vm_compute; reflexivity|].
      apply H3; [reflexivity|]. vm_compute. discriminate.
Defined.

(** ** C1: the clap history across a frame without two hands *)

(** On a frame whose hand count is not 2, [detect] leaves the clap history
    as it is: the [else] branch assigns [clap_state] and [prev_dist], which
    the clap rule never reads, and a frame without hands assigns nothing. *)
Lemma detect_other_hand_count_history (frame : Frame) (w : World) :
  length (multi_hand_landmarks frame) <> 2 ->
  clap_dist_history (self (snd (detect frame w)))
  = clap_dist_history (self w).
Proof.
  intros Hne. unfold detect.
  destruct (multi_hand_landmarks frame) as [|h0 rest] eqn:E; [reflexivity|].
  apply (keeps_bind_from
           (fun s => clap_dist_history s = clap_dist_history (self w))).
  - unfold clap_phase. apply Nat.eqb_neq in Hne. rewrite Hne. reflexivity.
  - intros [g|]; [apply keeps_ret | apply keeps_for_hands_history].
Qed.

(** C1 fails on the code.  After the one-hand frame the history still
    holds the three far distances, and the single two-hand frame that
    follows is reported as a clap. *)
Theorem clap_history_survives_one_hand_frame :
  history (run (take 4 far_gap_close) (fresh clock0))
  = map px [250; 230; 210]%Z
  /\ clap_state (self (run (take 4 far_gap_close) (fresh clock0)))
     = "apart"%string
  /\ fst (detect_all far_gap_close (fresh clock0))
     = [Return None; Return None; Return None; Return None;
        Return (Some "clap_gesture"%string)].
Proof.
  repeat split; vm_compute; reflexivity.
Qed.

(** * Further properties of the code *)

(** ** Invariants that relate the returned gesture and the detector *)

Section Lands.
Context (I : option string -> GestureDetector -> Prop).

Hypothesis Hwave : forall g s t p, I g s -> I g (set_wave t p s).

Hypothesis Hhand : forall g k s now,
  k = "thumbs_up"%string \/ k = "wave"%string ->
  I g s ->
  (debounce_time s < now - default 0 (last_gesture_time s !! k))%Q ->
  I (Some k)
    (set_last_gesture_time (<[k := now]> (last_gesture_time s)) s).

Lemma hand_gate_lands (k : string) (g : option string) (w : World) :
  k = "thumbs_up"%string \/ k = "wave"%string ->
  I g (self w) ->
  lands I ((b <- _debounce k ;;
            if b then ret (Some k) else ret g) w).
Proof.
  intros Hk Hg. rewrite bind_unfold, debounce_unfold. cbn zeta.
  destruct (Qltb _ _) eqn:E; cbn.
  - apply (Hhand g); [exact Hk | exact Hg | apply Qltb_lt; exact E].
  - exact Hg.
Qed.

Lemma wave_detection_lands (frame : Frame) (h : NormalizedLandmarkList)
  (g : option string) (w : World) :
  I g (self w) -> lands I (wave_detection frame h g w).
Proof.
  intros Hg. unfold wave_detection. rewrite bind_unfold. cbn [get_self].
  destruct (wave (self w)) as [wv|].
  - rewrite bind_unfold. cbn [time_time]. destruct (Qltb _ _).
    + rewrite bind_unfold. unfold getitem.
      destruct (landmark h !! 0); [|exists g; exact Hg]. cbn zeta.
      destruct (Qltb _ _); [|exact Hg].
      apply (hand_gate_lands "wave" g); [right; reflexivity | exact Hg].
    + munfold. cbn.
      destruct (landmark h !! 0); [apply (Hwave g)|exists g]; exact Hg.
  - munfold. cbn.
    destruct (landmark h !! 0); [apply (Hwave g)|exists g]; exact Hg.
Qed.

Lemma hand_body_lands (frame : Frame) (h : NormalizedLandmarkList)
  (g : option string) (w : World) :
  I g (self w) -> lands I (hand_body frame h g w).
Proof.
  intros Hg. unfold hand_body. rewrite bind_unfold, get_fingers_world.
  destruct (fst (get_fingers h w)) as [fingers|e]; [|exists g; exact Hg].
  rewrite bind_unfold.
  destruct (bool_decide (fingers = [1; 0; 0; 0; 0]%Z)) eqn:E1.
  - apply bool_decide_eq_true in E1. subst fingers.
    rewrite bool_decide_eq_false_2 by discriminate.
    pose proof (hand_gate_lands "thumbs_up" g w
                  (or_introl eq_refl) Hg) as Hl.
    destruct ((b <- _debounce "thumbs_up" ;;
               if b then ret (Some "thumbs_up"%string) else ret g) w)
      as [[r|e] w1]; exact Hl.
  - cbn [ret].
    destruct (bool_decide (fingers = [1; 1; 1; 1; 1]%Z)); [|exact Hg].
    apply wave_detection_lands. exact Hg.
Qed.

Lemma for_hands_lands (frame : Frame) (hs : list NormalizedLandmarkList)
  (g : option string) (w : World) :
  I g (self w) -> lands I (for_hands frame hs g w).
Proof.
  revert g w. induction hs as [|h hs IH]; intros g w Hg.
  - exact Hg.
  - cbn [for_hands]. rewrite bind_unfold.
    pose proof (hand_body_lands frame h g w Hg) as Hl.
    destruct (hand_body frame h g w) as [[g'|e] w1]; [|exact Hl].
    apply IH. exact Hl.
Qed.

Hypothesis Hclap : forall s now,
  I None s ->
  (debounce_time s
   < now - default 0 (last_gesture_time s !! "clap_gesture"))%Q ->
  I (Some "clap_gesture"%string)
    (set_last_gesture_time
       (<["clap_gesture" := now]> (last_gesture_time s)) s).
Hypothesis Hreset : forall s, I None s -> I None (set_clap_reset s).
Hypothesis Hhist : forall s d,
  I None s ->
  I None (set_clap_dist_history (push_history (clap_dist_history s) d) s).

Lemma clap_phase_lands (frame : Frame) (hs : list NormalizedLandmarkList)
  (w : World) :
  I None (self w) -> lands I (clap_phase frame hs w).
Proof.
  intros H0. unfold clap_phase. destruct (_ =? _)%nat.
  - unfold clap_branch. destruct (shape frame) as [[h wd] c].
    repeat (rewrite bind_unfold;
            match goal with
            | |- context [getitem ?l ?i w] =>
                unfold getitem at 1; destruct (l !! i)
            end; [|exists None; exact H0]).
    cbn zeta. rewrite bind_unfold. cbn [get_self].
    rewrite bind_unfold. cbn [modify_self bind get_self put_self].
    destruct (clap_candidate _ _); [|exact (Hhist (self w) _ H0)].
    rewrite bind_unfold, debounce_unfold. cbn zeta.
    destruct (Qltb _ _) eqn:E.
    + apply Qltb_lt in E. exact (Hclap _ _ (Hhist (self w) _ H0) E).
    + exact (Hhist (self w) _ H0).
  - munfold. cbn. apply Hreset. exact H0.
Qed.

Lemma detect_lands (frame : Frame) (w : World) :
  I None (self w) -> lands I (detect frame w).
Proof.
  intros H0. unfold detect.
  destruct (multi_hand_landmarks frame) as [|h0 rest]; [exact H0|].
  rewrite bind_unfold.
  pose proof (clap_phase_lands frame (h0 :: rest) w H0) as Hl.
  destruct (clap_phase frame (h0 :: rest) w) as [[[g|]|e] w1];
    [exact Hl | | exact Hl].
  apply for_hands_lands. exact Hl.
Qed.
End Lands.

(** A property of the detector that survives the four assignments of
    [detect] (the gate being asked for the three kinds only) survives
    [detect]. *)
Lemma detect_keeps_by_kind (Phi : GestureDetector -> Prop) (frame : Frame) :
  (forall s t p, Phi s -> Phi (set_wave t p s)) ->
  (forall k s now,
     k ∈ kinds -> Phi s ->
     (debounce_time s < now - default 0 (last_gesture_time s !! k))%Q ->
     Phi (set_last_gesture_time (<[k := now]> (last_gesture_time s)) s)) ->
  (forall s, Phi s -> Phi (set_clap_reset s)) ->
  (forall s d,
     Phi s ->
     Phi (set_clap_dist_history (push_history (clap_dist_history s) d) s)) ->
  keeps Phi (detect frame).
Proof.
  intros Hw Hk Hr Hh w H0.
  pose proof (detect_lands (fun _ => Phi)) as Hl.
  specialize (Hl (fun _ s t p H => Hw s t p H)).
  assert (Hhand : forall (g : option string) k s now,
             k = "thumbs_up"%string \/ k = "wave"%string ->
             Phi s ->
             (debounce_time s
              < now - default 0 (last_gesture_time s !! k))%Q ->
             Phi (set_last_gesture_time
                    (<[k := now]> (last_gesture_time s)) s)).
  { intros _ k s now [->| ->] Hs Hlt; apply Hk; try assumption;
      unfold kinds; set_solver. }
  specialize (Hl Hhand).
  assert (Hclap : forall s now,
             Phi s ->
             (debounce_time s
              < now - default 0 (last_gesture_time s !! "clap_gesture"))%Q ->
             Phi (set_last_gesture_time
                    (<["clap_gesture" := now]> (last_gesture_time s)) s)).
  { intros s now Hs Hlt. apply Hk; try assumption. unfold kinds. set_solver. }
  specialize (Hl Hclap Hr Hh frame w H0).
  destruct (detect frame w) as [[r|e] w1]; cbn in *;
    [exact Hl | destruct Hl as [_ Hl]; exact Hl].
Qed.

Lemma run_keeps (Phi : GestureDetector -> Prop) :
  (forall frame, keeps Phi (detect frame)) ->
  forall frames w, Phi (self w) -> Phi (self (run frames w)).
Proof.
  intros Hk frames. induction frames as [|f fs IH]; intros w Hw; [exact Hw|].
  cbn. apply IH. apply Hk. exact Hw.
Qed.

(** ** X1: what [detect] can return *)

(** X1. When [detect] returns an event, it is one of [clap_gesture],
    [thumbs_up] and [wave], and the debounce table of the detector holds an
    entry for it when the call ends. *)
Theorem detect_vocabulary (frame : Frame) (w : World) (g : string) :
  fst (detect frame w) = Return (Some g) ->
  g ∈ kinds
  /\ is_Some (last_gesture_time (self (snd (detect frame w))) !! g).
Proof.
  intros Hr.
  pose proof (detect_lands
                (fun r s => match r with
                            | Some k => k ∈ kinds
                                        /\ is_Some (last_gesture_time s !! k)
                            | None => True
                            end)) as Hl.
  cbv beta in Hl.
  assert (Hfin : lands
            (fun r s => match r with
                        | Some k => k ∈ kinds
                                    /\ is_Some (last_gesture_time s !! k)
                        | None => True
                        end) (detect frame w)).
  { apply Hl; try exact I.
    - intros [k|] s t p H; exact H.
    - intros r k s now Hk _ _. split.
      + unfold kinds. destruct Hk as [->| ->]; set_solver.
      + cbn. rewrite lookup_insert_eq. eauto.
    - intros s now _ _. split.
      + unfold kinds. set_solver.
      + cbn. rewrite lookup_insert_eq. eauto.
    - intros s _. exact I.
    - intros s d _. exact I. }
  destruct (detect frame w) as [[r|e] w1]; cbn in Hr; [|discriminate Hr].
  injection Hr as ->. exact Hfin.
Qed.

Lemma detect_vocabulary_witness :
  "wave"%string ∈ kinds
  /\ is_Some (last_gesture_time
                (self (snd (detect thumb_then_wave after_open_hand)))
                !! "wave"%string).
Proof.
  apply (detect_vocabulary thumb_then_wave after_open_hand "wave").
  vm_compute. reflexivity.
Defined.

(** ** X2: two events of one kind are more than the debounce time apart *)

Lemma keeps_detect_slot (k : string) (a d0 : Q) (frame : Frame) :
  keeps (fun s => debounce_time s = d0 /\ slot_taken k a s) (detect frame).
Proof.
  apply keeps_detect.
  - intros g w [Hd Hs]. split.
    + apply (keeps_debounce_blind (fun s => debounce_time s = d0));
        [intros s t H; exact H | exact Hd].
    + apply keeps_debounce_slot. exact Hs.
  - intros s t p H. exact H.
  - intros s H. exact H.
  - intros s d H. exact H.
Qed.

(** X2. Let the table hold time [a] for kind [k] (as it does after an
    event of kind [k] is returned), with a debounce time that is not
    negative.  After any further frames, a frame for which [detect] returns
    [k] again leaves in the table a time more than [debounce_time] after
    [a]: events of one kind are never reported closer than the debounce
    time. *)
Theorem emissions_spaced (k : string) (a : Q) (frames : list Frame)
  (frame : Frame) (w : World) :
  (0 <= debounce_time (self w))%Q ->
  last_gesture_time (self w) !! k = Some a ->
  fst (detect frame (run frames w)) = Return (Some k) ->
  exists b,
    last_gesture_time (self (snd (detect frame (run frames w)))) !! k = Some b
    /\ (a + debounce_time (self w) < b)%Q.
Proof.
  intros Hdt Ha Hr. set (d0 := debounce_time (self w)) in *.
  assert (H2 : debounce_time (self (run frames w)) = d0
               /\ slot_taken k a (self (run frames w))).
  { apply (run_keeps _ (keeps_detect_slot k a d0)).
    split; [reflexivity|]. split; [exact Hdt|].
    exists a. split; [exact Ha | apply Qle_refl]. }
  set (Inv := fun (r : option string) (s : GestureDetector) =>
                (debounce_time s = d0 /\ slot_taken k a s)
                /\ (r = Some k ->
                    exists b, last_gesture_time s !! k = Some b
                              /\ (a + d0 < b)%Q)).
  assert (Hpass : forall (r : option string) k' s now,
             Inv r s ->
             (debounce_time s
              < now - default 0 (last_gesture_time s !! k'))%Q ->
             Inv (Some k')
               (set_last_gesture_time
                  (<[k' := now]> (last_gesture_time s)) s)).
  { intros r k' s now [[Hd [H0 (t' & Ht' & Hle)]] _] Hlt.
    unfold Inv, slot_taken.
    cbn [debounce_time last_gesture_time set_last_gesture_time].
    destruct (decide (k' = k)) as [->|Hne].
    - rewrite lookup_insert_eq. rewrite Ht' in Hlt. cbn in Hlt.
      rewrite Hd in Hlt.
      split; [split; [exact Hd|split; [exact H0|]]|].
      + exists now. split; [reflexivity | lra].
      + intros _. exists now. split; [reflexivity | lra].
    - rewrite lookup_insert_ne by exact Hne.
      split; [split; [exact Hd|split; [exact H0|eauto]]|].
      intros Heq. congruence. }
  assert (Hfin : lands Inv (detect frame (run frames w))).
  { apply detect_lands.
    - intros r s t p H. exact H.
    - intros r k' s now _ H Hlt. exact (Hpass r k' s now H Hlt).
    - intros s now H Hlt. exact (Hpass None _ s now H Hlt).
    - intros s H. exact H.
    - intros s d H. exact H.
    - split; [exact H2 | discriminate]. }
  destruct (detect frame (run frames w)) as [[r|e] w1]; cbn in Hr;
    [|discriminate Hr].
  injection Hr as ->. exact (proj2 Hfin eq_refl).
Qed.

Lemma emissions_spaced_witness :
  exists b,
    last_gesture_time
      (self (snd (detect thumb_only
                    (run [thumb_only]
                       (snd (detect thumb_only (fresh clock_300ms)))))))
      !! "thumbs_up"%string = Some b
    /\ (clock_300ms 0
        + debounce_time (self (snd (detect thumb_only (fresh clock_300ms))))
        < b)%Q.
Proof.
  apply (emissions_spaced "thumbs_up" (clock_300ms 0) [thumb_only] thumb_only
           (snd (detect thumb_only (fresh clock_300ms)))).
  - vm_compute. discriminate.
  - vm_compute. reflexivity.
  - vm_compute. reflexivity.
Defined.

(** ** X3: a returned clap skips the classification of the hands *)

Lemma for_hands_never_clap (frame : Frame)
  (hs : list NormalizedLandmarkList) (w : World) :
  fst (for_hands frame hs None w) <> Return (Some "clap_gesture"%string).
Proof.
  pose proof (for_hands_lands
                (fun r _ => r <> Some "clap_gesture"%string)) as Hl.
  cbv beta in Hl.
  assert (Hfin : lands (fun r _ => r <> Some "clap_gesture"%string)
                   (for_hands frame hs None w)).
  { apply Hl.
    - intros r s t p H. exact H.
    - intros r k s now [->| ->] _ _; discriminate.
    - discriminate. }
  destruct (for_hands frame hs None w) as [[r|e] w1]; cbn in *.
  - intros Heq. injection Heq as ->. apply Hfin. reflexivity.
  - discriminate.
Qed.

(** X3. When [detect] returns [clap_gesture], the frame has exactly two
    hands and no hand was classified: the wave tracking state is the one
    before the call, and so is every table entry but that of
    [clap_gesture]. *)
Theorem clap_preempts_hands (frame : Frame) (w : World) :
  fst (detect frame w) = Return (Some "clap_gesture"%string) ->
  length (multi_hand_landmarks frame) = 2
  /\ wave (self (snd (detect frame w))) = wave (self w)
  /\ forall k, k <> "clap_gesture"%string ->
               last_gesture_time (self (snd (detect frame w))) !! k
               = last_gesture_time (self w) !! k.
Proof.
  intros Hr. unfold detect in *.
  destruct (multi_hand_landmarks frame) as [|h0 rest] eqn:E;
    [discriminate Hr|].
  rewrite bind_unfold in *.
  set (Phi := fun s : GestureDetector =>
                wave s = wave (self w)
                /\ forall k, k <> "clap_gesture"%string ->
                             last_gesture_time s !! k
                             = last_gesture_time (self w) !! k).
  assert (Hl : lands (fun _ => Phi) (clap_phase frame (h0 :: rest) w)).
  { apply clap_phase_lands.
    - intros s now [Hw Ht] _. split; [exact Hw|].
      intros k Hk. cbn. rewrite lookup_insert_ne by congruence.
      apply Ht. exact Hk.
    - intros s H. exact H.
    - intros s d H. exact H.
    - split; [reflexivity | intros; reflexivity]. }
  assert (Hlen : fst (clap_phase frame (h0 :: rest) w) <> Return None ->
                 length (h0 :: rest) = 2).
  { unfold clap_phase. destruct (length (h0 :: rest) =? 2) eqn:E2.
    - intros _. apply Nat.eqb_eq. exact E2.
    - munfold. cbn. intros H. contradiction H. reflexivity. }
  destruct (clap_phase frame (h0 :: rest) w) as [[[g|]|e] w1];
    cbn in *.
  - split; [apply Hlen; discriminate | exact Hl].
  - exfalso. exact (for_hands_never_clap frame (h0 :: rest) w1 Hr).
  - discriminate Hr.
Qed.

Lemma clap_preempts_hands_witness :
  length (multi_hand_landmarks two_stubs) = 2
  /\ wave (self (snd (detect two_stubs
                        (run (map two_hands_at [250; 230]%Z) (fresh clock0)))))
     = wave (self (run (map two_hands_at [250; 230]%Z) (fresh clock0)))
  /\ forall k, k <> "clap_gesture"%string ->
       last_gesture_time
         (self (snd (detect two_stubs
                       (run (map two_hands_at [250; 230]%Z) (fresh clock0)))))
         !! k
       = last_gesture_time
           (self (run (map two_hands_at [250; 230]%Z) (fresh clock0))) !! k.
Proof.
  apply (clap_preempts_hands two_stubs
           (run (map two_hands_at [250; 230]%Z) (fresh clock0))).
  vm_compute. reflexivity.
Defined.

(** ** X4: the keys of the debounce table *)

(** X4. [detect] never removes an entry of the debounce table, and from
    [__init__] on, whatever the frames, the table only ever holds the keys
    [clap_gesture], [thumbs_up] and [wave]. *)
Theorem table_keys :
  (forall (frame : Frame) (w : World) (k : string),
     is_Some (last_gesture_time (self w) !! k) ->
     is_Some (last_gesture_time (self (snd (detect frame w))) !! k))
  /\ (forall (frames : list Frame) (clock : nat -> Q) (dt : Q) (k : string),
        is_Some (last_gesture_time
                   (self (run frames
                            {| self := __init__ dt; readings := clock;
                               ticks := 0 |})) !! k) ->
        k ∈ kinds).
Proof.
  split.
  - intros frame w k Hk.
    apply (detect_keeps_by_kind
             (fun s => is_Some (last_gesture_time s !! k))); try exact Hk.
    + intros s t p H. exact H.
    + intros k' s now _ H _. cbn.
      destruct (decide (k' = k)) as [->|Hne].
      * rewrite lookup_insert_eq. eauto.
      * rewrite lookup_insert_ne by exact Hne. exact H.
    + intros s H. exact H.
    + intros s d H. exact H.
  - intros frames clock dt k.
    apply (run_keeps
             (fun s => forall k, is_Some (last_gesture_time s !! k) ->
                                 k ∈ kinds)).
    + intros frame. apply detect_keeps_by_kind.
      * intros s t p H. exact H.
      * intros k' s now Hk' H _ k0. cbn.
        destruct (decide (k' = k0)) as [->|Hne]; [intros _; exact Hk'|].
        rewrite lookup_insert_ne by exact Hne. apply H.
      * intros s H. exact H.
      * intros s d H. exact H.
    + intros k0. cbn. rewrite lookup_empty. intros [v Hv]. discriminate Hv.
Qed.

Lemma table_keys_witness :
  is_Some (last_gesture_time
             (self (snd (detect sweep
                           (snd (detect thumb_only after_open_hand)))))
             !! "thumbs_up"%string)
  /\ "wave"%string ∈ kinds.
Proof.
  split.
  - apply (proj1 table_keys). eexists. vm_compute. reflexivity.
  - apply (proj2 table_keys [frame_of [open_hand (3 # 10) (1 # 2)]; sweep]
             clock0 default_debounce_time).
    eexists. vm_compute. reflexivity.
Defined.

(** ** X5: the fields of the old clap state machine *)

(** X5. From [__init__] on, whatever the frames, [clap_state] is ["apart"],
    [prev_dist] and [prev_time] are [None], and the four thresholds and the
    debounce time are those of [__init__]: [detect] never gives these
    fields another value. *)
Theorem clap_state_machine_unused (frames : list Frame) (clock : nat -> Q)
  (dt : Q) :
  let s := self (run frames
                   {| self := __init__ dt; readings := clock; ticks := 0 |}) in
  clap_state s = "apart"%string
  /\ prev_dist s = None
  /\ prev_time s = None
  /\ dist_threshold_apart s = 120%Z
  /\ dist_threshold_close s = 70%Z
  /\ speed_threshold_close s = 300%Z
  /\ speed_threshold_apart s = 200%Z
  /\ debounce_time s = dt.
Proof.
  apply (run_keeps
           (fun s => clap_state s = "apart"%string
                     /\ prev_dist s = None
                     /\ prev_time s = None
                     /\ dist_threshold_apart s = 120%Z
                     /\ dist_threshold_close s = 70%Z
                     /\ speed_threshold_close s = 300%Z
                     /\ speed_threshold_apart s = 200%Z
                     /\ debounce_time s = dt)).
  - intros frame. apply keeps_detect.
    + intros g. apply keeps_debounce_blind. intros s t H. exact H.
    + intros s t p H. exact H.
    + intros s (_ & _ & H). cbn. split; [reflexivity|].
      split; [reflexivity | exact H].
    + intros s d H. exact H.
  - cbn. repeat split; reflexivity.
Qed.

(** ** The body of the loop, case by case *)

Lemma hand_body_raises (frame : Frame) (h : NormalizedLandmarkList)
  (g : option string) (w : World) (e : Exception) :
  fst (get_fingers h w) = Raise e ->
  hand_body frame h g w = (Raise e, w).
Proof.
  intros Hf. unfold hand_body.
  rewrite bind_unfold, get_fingers_world, Hf. reflexivity.
Qed.

Lemma hand_body_thumb (frame : Frame) (h : NormalizedLandmarkList)
  (g : option string) (w : World) :
  fst (get_fingers h w) = Return [1; 0; 0; 0; 0]%Z ->
  hand_body frame h g w =
  (b <- _debounce "thumbs_up" ;;
   if b then ret (Some "thumbs_up"%string) else ret g) w.
Proof.
  intros Hf. unfold hand_body.
  rewrite bind_unfold, get_fingers_world, Hf.
  rewrite bool_decide_eq_true_2 by reflexivity.
  rewrite bool_decide_eq_false_2 by discriminate.
  rewrite !bind_unfold.
  destruct (_debounce "thumbs_up" w) as [[[]|e] w1]; reflexivity.
Qed.

Lemma hand_body_open (frame : Frame) (h : NormalizedLandmarkList)
  (g : option string) (w : World) :
  fst (get_fingers h w) = Return [1; 1; 1; 1; 1]%Z ->
  hand_body frame h g w = wave_detection frame h g w.
Proof.
  intros Hf. unfold hand_body.
  rewrite bind_unfold, get_fingers_world, Hf.
  rewrite bool_decide_eq_false_2 by discriminate.
  rewrite bind_unfold. cbn [ret].
  rewrite bool_decide_eq_true_2 by reflexivity. reflexivity.
Qed.

Lemma hand_body_other (frame : Frame) (h : NormalizedLandmarkList)
  (g : option string) (w : World) (fingers : list Z) :
  fst (get_fingers h w) = Return fingers ->
  fingers <> [1; 0; 0; 0; 0]%Z ->
  fingers <> [1; 1; 1; 1; 1]%Z ->
  hand_body frame h g w = (Return g, w).
Proof.
  intros Hf H1 H2. unfold hand_body.
  rewrite bind_unfold, get_fingers_world, Hf.
  rewrite bool_decide_eq_false_2 by exact H1.
  rewrite bind_unfold. cbn [ret].
  rewrite bool_decide_eq_false_2 by exact H2. reflexivity.
Qed.

(** The gate, as a boolean on the clock value it reads. *)
Lemma debounce_unfold_fst (gesture : string) (w : World) :
  fst (_debounce gesture w) = Return true <->
  (debounce_time (self w)
   < readings w (ticks w)
     - default 0 (last_gesture_time (self w) !! gesture))%Q.
Proof.
  rewrite debounce_unfold. cbn zeta.
  destruct (Qltb _ _) eqn:E; cbn [fst].
  - apply Qltb_lt in E. tauto.
  - apply Qltb_ge in E. split; [discriminate|].
    intros H. exfalso. exact (Qlt_not_le _ _ H E).
Qed.

(** The wave tracker passes [gesture] on or makes it [wave]. *)
Lemma wave_detection_result (frame : Frame) (h : NormalizedLandmarkList)
  (g : option string) (w : World) :
  match fst (wave_detection frame h g w) with
  | Return r => r = g \/ r = Some "wave"%string
  | Raise _ => True
  end.
Proof.
  unfold wave_detection. rewrite bind_unfold. cbn [get_self].
  destruct (wave (self w)) as [wv|].
  - rewrite bind_unfold. cbn [time_time]. destruct (Qltb _ _).
    + rewrite bind_unfold. unfold getitem.
      destruct (landmark h !! 0); [|exact I]. cbn zeta.
      destruct (Qltb _ _); [|left; reflexivity].
      rewrite bind_unfold, debounce_unfold. cbn zeta.
      destruct (Qltb _ _); [right | left]; reflexivity.
    + munfold. cbn. destruct (landmark h !! 0); [left; reflexivity|exact I].
  - munfold. cbn. destruct (landmark h !! 0); [left; reflexivity|exact I].
Qed.

(** ** X6: when the wave tracker (re)seeds, and when it stays *)

(** X6. For an open hand: without tracking state the tracker is seeded
    with the clock value read and the wrist's x; with a state whose
    [wave_prev_time] is 1.0 s or more before the clock value read, it is
    reseeded with the next clock value and the wrist's x; within the window
    and with a travel (as the code computes it, in binary64) of at most
    60 px it is left as it is.  In the three
    cases no candidate is raised: [gesture] comes out as it came in and the
    debounce table is not touched. *)
Theorem wave_tracker_quiet (frame : Frame) (h : NormalizedLandmarkList)
  (g : option string) (w : World) (l0 : NormalizedLandmark) :
  fst (get_fingers h w) = Return [1; 1; 1; 1; 1]%Z ->
  landmark h !! 0 = Some l0 ->
  let t := readings w (ticks w) in
  let t' := readings w (S (ticks w)) in
  (wave (self w) = None ->
   hand_body frame h g w
   = (Return g, {| self := set_wave t (x l0) (self w);
                   readings := readings w; ticks := S (ticks w) |}))
  /\ (forall wv, wave (self w) = Some wv ->
                 (1 <= t - wave_prev_time wv)%Q ->
                 hand_body frame h g w
                 = (Return g, {| self := set_wave t' (x l0) (self w);
                                 readings := readings w;
                                 ticks := S (S (ticks w)) |}))
  /\ (forall wv, wave (self w) = Some wv ->
                 (t - wave_prev_time wv < 1)%Q ->
                 (movement frame (x l0) (wave_start_pos wv) <= 60)%Q ->
                 hand_body frame h g w = (Return g, tick w)).
Proof.
  intros Hf Hl0 t t'. subst t t'. rewrite (hand_body_open frame h g w Hf).
  unfold wave_detection. rewrite bind_unfold. cbn [get_self].
  split; [|split].
  - intros Hw. rewrite Hw. munfold. cbn. rewrite Hl0. reflexivity.
  - intros wv Hw Hexp. rewrite Hw. rewrite bind_unfold. cbn [time_time].
    rewrite (proj2 (Qltb_ge _ _) Hexp). munfold. cbn. rewrite Hl0.
    reflexivity.
  - intros wv Hw Hin Hsmall. rewrite Hw. rewrite bind_unfold. cbn [time_time].
    rewrite (proj2 (Qltb_lt _ _) Hin). rewrite bind_unfold. unfold getitem.
    cbn [self]. rewrite Hl0. cbn zeta.
    rewrite (proj2 (Qltb_ge _ _) Hsmall). reflexivity.
Qed.

Lemma wave_tracker_quiet_witness :
  wave (self after_open_hand_slow)
  = Some {| wave_prev_time := clock_1100ms 0; wave_start_pos := 3 # 10 |}
  /\ fst (hand_body sweep (open_hand (8 # 10) (1 # 2)) None
            after_open_hand_slow) = Return None
  /\ wave (self (snd (hand_body sweep (open_hand (8 # 10) (1 # 2)) None
                        after_open_hand_slow)))
     = Some {| wave_prev_time := clock_1100ms 2; wave_start_pos := 8 # 10 |}.
Proof.
  split; [reflexivity|].
  destruct (wave_tracker_quiet sweep (open_hand (8 # 10) (1 # 2)) None
              after_open_hand_slow (point (8 # 10) (1 # 2)))
    as (_ & H2 & _).
  - vm_compute. reflexivity.
  - reflexivity.
  - rewrite (H2 {| wave_prev_time := clock_1100ms 0;
                   wave_start_pos := 3 # 10 |}).
    + split; reflexivity.
    + reflexivity.
    + vm_compute. discriminate.
Defined.

(** ** X7 and X8: exactly when a hand yields [wave] or [thumbs_up] *)

(** X7. A hand yields [wave] (with no candidate recorded before it) exactly
    when its finger vector is [1,1,1,1,1], the tracker has a state, the
    clock value read is less than 1.0 s after [wave_prev_time], the travel
    of the wrist from [wave_start_pos], as the code computes it in
    binary64, is above 60 px, and the gate allows [wave] at the next clock
    value. *)
Theorem wave_reported_iff (frame : Frame) (h : NormalizedLandmarkList)
  (w : World) :
  fst (hand_body frame h None w) = Return (Some "wave"%string) <->
  fst (get_fingers h w) = Return [1; 1; 1; 1; 1]%Z
  /\ exists wv l0,
       wave (self w) = Some wv
       /\ landmark h !! 0 = Some l0
       /\ (readings w (ticks w) - wave_prev_time wv < 1)%Q
       /\ (60 < movement frame (x l0) (wave_start_pos wv))%Q
       /\ (debounce_time (self w)
           < readings w (S (ticks w))
             - default 0 (last_gesture_time (self w) !! "wave"))%Q.
Proof.
  destruct (fst (get_fingers h w)) as [fingers|e] eqn:Hf.
  2:{ rewrite (hand_body_raises frame h None w e Hf). cbn.
      split; [discriminate | intros [H _]; discriminate H]. }
  destruct (decide (fingers = [1; 0; 0; 0; 0]%Z)) as [->|Hn1].
  { rewrite (hand_body_thumb frame h None w Hf).
    rewrite bind_unfold, debounce_unfold. cbn zeta.
    split; [|intros [H _]; discriminate H].
    destruct (Qltb _ _); cbn; discriminate. }
  destruct (decide (fingers = [1; 1; 1; 1; 1]%Z)) as [->|Hn2].
  2:{ rewrite (hand_body_other frame h None w fingers Hf Hn1 Hn2). cbn.
      split; [discriminate | intros [H _]; congruence]. }
  rewrite (hand_body_open frame h None w Hf).
  unfold wave_detection. rewrite bind_unfold. cbn [get_self].
  destruct (wave (self w)) as [wv|].
  2:{ munfold. cbn. split.
      - destruct (landmark h !! 0); cbn; discriminate.
      - intros [_ (wv & l0 & Hw & _)]. discriminate Hw. }
  rewrite bind_unfold. cbn [time_time].
  destruct (Qltb (readings w (ticks w) - wave_prev_time wv) 1) eqn:Ewin.
  2:{ apply Qltb_ge in Ewin. munfold. cbn. split.
      - destruct (landmark h !! 0); cbn; discriminate.
      - intros [_ (wv' & l0 & Hw & _ & Hlt & _)].
        injection Hw as <-. exfalso. exact (Qlt_not_le _ _ Hlt Ewin). }
  apply Qltb_lt in Ewin. rewrite bind_unfold. unfold getitem. cbn [self].
  destruct (landmark h !! 0) as [l0|] eqn:Hl0.
  2:{ cbn. split; [discriminate|].
      intros [_ (wv' & l0 & _ & Hl & _)]. discriminate Hl. }
  cbn zeta.
  destruct (Qltb 60 _) eqn:Etr.
  2:{ apply Qltb_ge in Etr. cbn. split; [discriminate|].
      intros [_ (wv' & l0' & Hw & Hl & _ & Hlt & _)].
      injection Hw as <-. injection Hl as <-.
      exfalso. exact (Qlt_not_le _ _ Hlt Etr). }
  apply Qltb_lt in Etr.
  rewrite bind_unfold, debounce_unfold. cbn zeta. cbn [self readings ticks].
  destruct (Qltb _ _) eqn:Eg.
  - apply Qltb_lt in Eg. split; [|reflexivity].
    intros _. split; [reflexivity|]. exists wv, l0. tauto.
  - apply Qltb_ge in Eg. cbn. split; [discriminate|].
    intros [_ (wv' & l0' & _ & _ & _ & _ & Hlt)].
    exfalso. exact (Qlt_not_le _ _ Hlt Eg).
Qed.

Lemma wave_reported_iff_witness :
  fst (hand_body sweep (open_hand (1 # 2) (1 # 2)) None after_open_hand)
  = Return (Some "wave"%string).
Proof.
  apply (proj2 (wave_reported_iff sweep (open_hand (1 # 2) (1 # 2))
                  after_open_hand)).
  split; [vm_compute; reflexivity|].
  exists {| wave_prev_time := clock0 0; wave_start_pos := 3 # 10 |},
         (point (1 # 2) (1 # 2)).
  repeat split; vm_compute; reflexivity.
Defined.

(** X8. A hand yields [thumbs_up] (with no candidate recorded before it)
    exactly when its finger vector is [1,0,0,0,0] and the gate allows
    [thumbs_up] at the clock value read. *)
Theorem thumbs_up_reported_iff (frame : Frame) (h : NormalizedLandmarkList)
  (w : World) :
  fst (hand_body frame h None w) = Return (Some "thumbs_up"%string) <->
  fst (get_fingers h w) = Return [1; 0; 0; 0; 0]%Z
  /\ (debounce_time (self w)
      < readings w (ticks w)
        - default 0 (last_gesture_time (self w) !! "thumbs_up"))%Q.
Proof.
  destruct (fst (get_fingers h w)) as [fingers|e] eqn:Hf.
  2:{ rewrite (hand_body_raises frame h None w e Hf). cbn.
      split; [discriminate | intros [H _]; discriminate H]. }
  destruct (decide (fingers = [1; 0; 0; 0; 0]%Z)) as [->|Hn1].
  { rewrite (hand_body_thumb frame h None w Hf).
    rewrite bind_unfold, debounce_unfold. cbn zeta.
    destruct (Qltb _ _) eqn:E; cbn.
    - apply Qltb_lt in E. tauto.
    - apply Qltb_ge in E. split; [discriminate|].
      intros [_ Hlt]. exfalso. exact (Qlt_not_le _ _ Hlt E). }
  split; [|intros [H _]; congruence].
  destruct (decide (fingers = [1; 1; 1; 1; 1]%Z)) as [->|Hn2].
  2:{ rewrite (hand_body_other frame h None w fingers Hf Hn1 Hn2). cbn.
      discriminate. }
  intros Hr. exfalso.
  rewrite (hand_body_open frame h None w Hf) in Hr.
  pose proof (wave_detection_result frame h None w) as Hres.
  rewrite Hr in Hres. destruct Hres as [H|H]; discriminate H.
Qed.

Lemma thumbs_up_reported_iff_witness :
  fst (hand_body thumb_only (thumbs_up_hand (1 # 10) (1 # 2)) None
         after_open_hand)
  = Return (Some "thumbs_up"%string).
Proof.
  apply (proj2 (thumbs_up_reported_iff thumb_only
                  (thumbs_up_hand (1 # 10) (1 # 2)) after_open_hand)).
  split; vm_compute; reflexivity.
Defined.

(** ** X9: hands in another pose *)

Lemma get_fingers_any_world (h : NormalizedLandmarkList) (w w' : World) :
  fst (get_fingers h w) = fst (get_fingers h w').
Proof.
  unfold get_fingers, tips. cbn [drop other_fingers]. munfold.
  repeat match goal with
         | |- context [landmark h !! ?i] => destruct (landmark h !! i)
         end; reflexivity.
Qed.

Lemma for_hands_other_pose (frame : Frame)
  (hs : list NormalizedLandmarkList) (g : option string) (w : World) :
  Forall (fun h => other_pose h w) hs ->
  for_hands frame hs g w = (Return g, w).
Proof.
  induction 1 as [|h hs (fingers & Hf & H1 & H2) _ IH]; [reflexivity|].
  cbn [for_hands]. rewrite bind_unfold.
  rewrite (hand_body_other frame h g w fingers Hf H1 H2). exact IH.
Qed.

(** X9. No partial match: on a frame with one hand, or three and more,
    whose hands all have a finger vector other than [1,0,0,0,0] and
    [1,1,1,1,1], [detect] returns no event, reads no clock, and assigns
    nothing but [clap_state = "apart"] and [prev_dist = None]. *)
Theorem other_poses_do_nothing (frame : Frame) (w : World) :
  multi_hand_landmarks frame <> [] ->
  length (multi_hand_landmarks frame) <> 2 ->
  Forall (fun h => other_pose h w) (multi_hand_landmarks frame) ->
  detect frame w
  = (Return None, {| self := set_clap_reset (self w);
                     readings := readings w; ticks := ticks w |}).
Proof.
  intros Hne Hlen Hall. unfold detect.
  destruct (multi_hand_landmarks frame) as [|h0 rest] eqn:E;
    [contradiction Hne; reflexivity|].
  rewrite bind_unfold. unfold clap_phase.
  apply Nat.eqb_neq in Hlen. rewrite Hlen. munfold. cbn [fst snd].
  apply for_hands_other_pose.
  eapply Forall_impl; [exact Hall|].
  intros h (fingers & Hf & H1 & H2). exists fingers.
  split; [|split; assumption].
  rewrite <- Hf. apply get_fingers_any_world.
Qed.

Lemma other_poses_do_nothing_witness :
  fst (detect (frame_of [fist (1 # 2) (1 # 2)]) after_open_hand) = Return None
  /\ ticks (snd (detect (frame_of [fist (1 # 2) (1 # 2)]) after_open_hand))
     = ticks after_open_hand.
Proof.
  rewrite (other_poses_do_nothing (frame_of [fist (1 # 2) (1 # 2)])
             after_open_hand).
  - split; reflexivity.
  - discriminate.
  - cbn. lia.
  - constructor; [|constructor].
    exists [0; 0; 0; 0; 0]%Z. split; [vm_compute; reflexivity|].
    split; discriminate.
Defined.

(** ** X10: the finger vector does not depend on where the hand is *)

Lemma Qltb_shift (a b d : Q) : Qltb (a + d) (b + d) = Qltb a b.
Proof.
  destruct (Qltb a b) eqn:E.
  - apply Qltb_lt in E. apply Qltb_lt. lra.
  - apply Qltb_ge in E. apply Qltb_ge. lra.
Qed.

(** X10. Moving every landmark of a hand by the same [(dx, dy)] changes
    neither its finger vector nor whether the classification raises. *)
Theorem get_fingers_translate (dx dy : Q) (h : NormalizedLandmarkList)
  (w : World) :
  get_fingers (translate dx dy h) w = get_fingers h w.
Proof.
  unfold get_fingers, tips, translate.
  cbn [drop other_fingers landmark]. munfold.
  rewrite !list_lookup_fmap.
  repeat match goal with
         | |- context [landmark h !! ?i] => destruct (landmark h !! i)
         end; cbn [fmap option_fmap option_map x y];
    rewrite ?Qltb_shift; reflexivity.
Qed.

(** ** X11 and X12: [_get_min_distance] *)

Lemma palm_outcome (h w : Z) (lm : NormalizedLandmarkList) (wd : World) :
  snd (palm h w lm wd) = wd
  /\ (10 <= length (landmark lm) -> exists p, fst (palm h w lm wd) = Return p)
  /\ (length (landmark lm) < 10 -> fst (palm h w lm wd) = Raise IndexError).
Proof.
  unfold palm. munfold.
  destruct (landmark lm !! 0) as [l0|] eqn:E0;
    destruct (landmark lm !! 9) as [l9|] eqn:E9; cbn [fst snd];
    (split; [reflexivity|]); split; intros Hlen;
    try (eexists; reflexivity); try reflexivity; exfalso.
  - apply lookup_lt_Some in E9. lia.
  - apply lookup_ge_None in E9. lia.
  - apply lookup_ge_None in E0. lia.
  - apply lookup_ge_None in E0. lia.
Qed.

Lemma palms_world (h w : Z) (hs : list NormalizedLandmarkList)
  (acc : list (Q * Q)) (wd : World) :
  snd (palms h w hs acc wd) = wd.
Proof.
  revert acc. induction hs as [|lm hs IH]; intros acc; [reflexivity|].
  cbn [palms]. rewrite bind_unfold.
  pose proof (proj1 (palm_outcome h w lm wd)) as Hw.
  destruct (palm h w lm wd) as [[p|e] wd1]; cbn in Hw; subst wd1.
  - apply IH.
  - reflexivity.
Qed.

Lemma palms_long (h w : Z) (hs : list NormalizedLandmarkList)
  (acc : list (Q * Q)) (wd : World) :
  Forall (fun lm => 10 <= length (landmark lm)) hs ->
  exists ps, fst (palms h w hs acc wd) = Return (acc ++ ps)
             /\ length ps = length hs.
Proof.
  intros Hall. revert acc.
  induction Hall as [|lm hs Hlm _ IH]; intros acc.
  - exists []. rewrite app_nil_r. split; reflexivity.
  - cbn [palms]. rewrite bind_unfold.
    destruct (palm_outcome h w lm wd) as (Hw & Hlong & _).
    destruct (Hlong Hlm) as [p Hp].
    destruct (palm h w lm wd) as [[p'|e] wd1]; cbn in Hw, Hp; subst wd1;
      [|discriminate Hp].
    injection Hp as ->. destruct (IH (acc ++ [p])) as (ps & Hps & Hlen).
    exists (p :: ps). rewrite Hps, <- app_assoc. cbn. split; [reflexivity|].
    rewrite Hlen. reflexivity.
Qed.

Lemma palms_short (h w : Z) (hs : list NormalizedLandmarkList)
  (acc : list (Q * Q)) (wd : World) (lm : NormalizedLandmarkList) :
  lm ∈ hs ->
  length (landmark lm) < 10 ->
  fst (palms h w hs acc wd) = Raise IndexError.
Proof.
  intros Hin Hlen. revert acc.
  induction hs as [|lm' hs IH]; intros acc; [inversion Hin|].
  cbn [palms]. rewrite bind_unfold.
  destruct (palm_outcome h w lm' wd) as (Hw & _ & Hshort).
  destruct (palm h w lm' wd) as [[p|[]] wd1]; cbn in Hw, Hshort; subst wd1;
    [|reflexivity].
  apply elem_of_cons in Hin as [->|Hin].
  - specialize (Hshort Hlen). discriminate Hshort.
  - apply IH. exact Hin.
Qed.

(** X11. [_get_min_distance] changes nothing in the detector and reads no
    clock.  When every hand has at least 10 points it returns a distance
    exactly when there are two hands, and [None] otherwise; when some hand
    has fewer than 10 points it raises [IndexError], whatever the number of
    hands. *)
Theorem min_distance_outcome (hs : list NormalizedLandmarkList)
  (frame_shape : Z * Z * Z) (w : World) :
  snd (_get_min_distance hs frame_shape w) = w
  /\ (Forall (fun lm => 10 <= length (landmark lm)) hs ->
      exists r, fst (_get_min_distance hs frame_shape w) = Return r
                /\ (is_Some r <-> length hs = 2))
  /\ (forall lm, lm ∈ hs -> length (landmark lm) < 10 ->
                 fst (_get_min_distance hs frame_shape w) = Raise IndexError).
Proof.
  unfold _get_min_distance. destruct frame_shape as [[h wd] c].
  rewrite !bind_unfold.
  pose proof (palms_world h wd hs [] w) as Hw.
  split; [|split].
  - destruct (palms h wd hs [] w) as [[ps|e] w1]; cbn in Hw; subst w1;
      [|reflexivity].
    destruct ps as [|p0 [|p1 [|p2 ps]]]; reflexivity.
  - intros Hall. destruct (palms_long h wd hs [] w Hall) as (ps & Hps & Hlen).
    destruct (palms h wd hs [] w) as [[ps'|e] w1]; cbn in Hps;
      [|discriminate Hps].
    injection Hps as ->. rewrite <- Hlen.
    destruct ps as [|p0 [|p1 [|p2 ps]]]; cbn;
      eexists; (split; [reflexivity|]);
      split; try (intros [v Hv]; discriminate Hv); try discriminate; eauto.
  - intros lm Hin Hlen. pose proof (palms_short h wd hs [] w lm Hin Hlen) as Hs.
    destruct (palms h wd hs [] w) as [[ps|e] w1]; cbn in Hs;
      [discriminate Hs|].
    cbn. destruct e. reflexivity.
Qed.

Lemma min_distance_outcome_witness :
  (exists r,
     fst (_get_min_distance [fist 0 0] (480, 640, 3)%Z (fresh clock0))
     = Return r /\ (is_Some r <-> length [fist 0 0] = 2))
  /\ fst (_get_min_distance three_hands (480, 640, 3)%Z (fresh clock0))
     = Raise IndexError.
Proof.
  split.
  - apply (proj1 (proj2 (min_distance_outcome [fist 0 0] (480, 640, 3)%Z
                           (fresh clock0)))).
    constructor; [vm_compute; lia | constructor].
  - apply (proj2 (proj2 (min_distance_outcome three_hands (480, 640, 3)%Z
                           (fresh clock0)))
             (pose (point 1 0) false false 5)).
    + unfold three_hands. set_solver.
    + vm_compute. lia.
Defined.

(** X12. The distance of [_get_min_distance] does not depend on the order
    of the two hands. *)
Theorem min_distance_symmetric (h1 h2 : NormalizedLandmarkList)
  (frame_shape : Z * Z * Z) (w : World) (d : Dist) :
  fst (_get_min_distance [h1; h2] frame_shape w) = Return (Some d) ->
  exists d',
    fst (_get_min_distance [h2; h1] frame_shape w) = Return (Some d')
    /\ dist_eq d d'.
Proof.
  unfold _get_min_distance. destruct frame_shape as [[h wd] c].
  rewrite !bind_unfold. cbn [palms]. rewrite !bind_unfold.
  pose proof (proj1 (palm_outcome h wd h1 w)) as Hw1.
  pose proof (proj1 (palm_outcome h wd h2 w)) as Hw2.
  destruct (palm h wd h1 w) as [[p1|e1] w1] eqn:E1; cbn in Hw1; subst w1.
  2:{ cbn. discriminate. }
  rewrite bind_unfold.
  destruct (palm h wd h2 w) as [[p2|e2] w2] eqn:E2; cbn in Hw2; subst w2.
  2:{ cbn. discriminate. }
  rewrite bind_unfold, E1. cbn.
  intros Hd. injection Hd as <-. eexists. split; [reflexivity|].
  unfold dist_eq, norm. cbn [radicand fst snd]. ring.
Qed.

Lemma min_distance_symmetric_witness :
  exists d d',
    fst (_get_min_distance (multi_hand_landmarks slanted_hands)
           (shape slanted_hands) (fresh clock0)) = Return (Some d)
    /\ fst (_get_min_distance (rev (multi_hand_landmarks slanted_hands))
              (shape slanted_hands) (fresh clock0)) = Return (Some d')
    /\ dist_eq d d'.
Proof.
  assert (H : fst (_get_min_distance (multi_hand_landmarks slanted_hands)
                     (shape slanted_hands) (fresh clock0))
              = Return (Some (Sqrt (989560464998400 # 17179869184))))
    by (vm_compute; reflexivity).
  destruct (min_distance_symmetric _ _ _ _ _ H) as (d' & H2 & H3).
  exists (Sqrt (989560464998400 # 17179869184)), d'.
  split; [exact H | split; [exact H2 | exact H3]].
Defined.

(** ** X13: which events [ShapeRenderer.draw] draws *)

Lemma event_map_keys (e : string) (v : string * (Z * Z * Z)) :
  event_map !! e = Some v -> (e, v) ∈ event_entries.
Proof.
  intros H. apply elem_of_list_to_map_2. exact H.
Qed.

(** X13. [draw] issues exactly one drawing call for each of the six events
    of [event_map], and none for any other event (the frame is then only
    blended with its own copy). *)
Theorem draw_known_events (frame_shape : Z * Z * Z) (event : string) :
  (event_map !! event = None -> draw frame_shape event = [])
  /\ (is_Some (event_map !! event) -> length (draw frame_shape event) = 1)
  /\ (is_Some (event_map !! event) <->
      event ∈ ["clap_gesture"; "thumbs_up"; "wave";
               "clap_sound"; "humming"; "snap"]%string).
Proof.
  destruct frame_shape as [[h w] c].
  split; [|split].
  - intros H. unfold draw. rewrite H. reflexivity.
  - intros [v Hv]. apply event_map_keys in Hv. unfold event_entries in Hv.
    repeat (apply elem_of_cons in Hv as [Hv|Hv];
            [injection Hv as -> ->; vm_compute; reflexivity|]).
    inversion Hv.
  - split.
    + intros [v Hv]. apply event_map_keys in Hv. unfold event_entries in Hv.
      repeat (apply elem_of_cons in Hv as [Hv|Hv];
              [injection Hv as -> ->; set_solver|]).
      inversion Hv.
    + intros Hin.
      repeat (apply elem_of_cons in Hin as [->|Hin];
              [eexists; vm_compute; reflexivity|]).
      inversion Hin.
Qed.

Lemma draw_known_events_witness :
  draw (480, 640, 3)%Z "fist" = []
  /\ length (draw (480, 640, 3)%Z "wave") = 1.
Proof.
  split.
  - apply (proj1 (draw_known_events (480, 640, 3)%Z "fist")).
    vm_compute. reflexivity.
  - apply (proj1 (proj2 (draw_known_events (480, 640, 3)%Z "wave"))).
    eexists. vm_compute. reflexivity.
Defined.

(** ** X14: every event of the detector is shown in its own frame *)

Lemma detect_returns_kind (frame : Frame) (w : World) (g : string) :
  fst (detect frame w) = Return (Some g) -> g ∈ kinds.
Proof.
  intros Hr.
  assert (Hfin : lands (fun r _ => match r with
                                   | Some k => k ∈ kinds
                                   | None => True
                                   end) (detect frame w)).
  { apply detect_lands; try exact I.
    - intros [k|] s t p H; exact H.
    - intros r k s now [->| ->] _ _; unfold kinds; set_solver.
    - intros s now _ _. unfold kinds. set_solver.
    - intros s _. exact I.
    - intros s d _. exact I. }
  destruct (detect frame w) as [[r|e] w1]; cbn in Hr; [|discriminate Hr].
  injection Hr as ->. exact Hfin.
Qed.

Lemma Qltb_now (now : Q) : Qltb (now - now) event_display_duration = true.
Proof.
  apply Qltb_lt. unfold event_display_duration. lra.
Qed.

(** X14. An event returned by [detect] is never an empty string, so the
    turn of [main] that receives it records it and hands it to [draw] at
    once, whatever was shown before, and [draw] issues one drawing call
    for it. *)
Theorem detector_event_is_drawn (frame : Frame) (w : World) (g : string)
  (now : Q) (st : MainState) (frame_shape : Z * Z * Z) :
  fst (detect frame w) = Return (Some g) ->
  main_step (Some g) now st
  = ({| last_event := Some g; last_event_time := now |}, Some g)
  /\ length (draw frame_shape g) = 1.
Proof.
  intros Hr. apply detect_returns_kind in Hr. unfold kinds in Hr.
  assert (Hcases : g = "clap_gesture"%string \/ g = "thumbs_up"%string
                   \/ g = "wave"%string).
  { apply elem_of_cons in Hr as [->|Hr]; [tauto|].
    apply elem_of_cons in Hr as [->|Hr]; [tauto|].
    apply elem_of_cons in Hr as [->|Hr]; [tauto|]. inversion Hr. }
  split.
  - unfold main_step. cbn zeta.
    assert (Ht : truthy (Some g) = true).
    { destruct Hcases as [->|[->| ->]]; reflexivity. }
    rewrite Ht. cbn [last_event last_event_time]. rewrite Ht, Qltb_now.
    reflexivity.
  - destruct frame_shape as [[h wd] c].
    destruct Hcases as [->|[->| ->]]; vm_compute; reflexivity.
Qed.

Lemma detector_event_is_drawn_witness :
  main_step (Some "wave"%string) 5 main_init
  = ({| last_event := Some "wave"%string; last_event_time := 5 |},
     Some "wave"%string)
  /\ length (draw (shape thumb_then_wave) "wave") = 1.
Proof.
  apply (detector_event_is_drawn thumb_then_wave after_open_hand).
  vm_compute. reflexivity.
Defined.

(** ** X15: how long an event stays on screen *)

Lemma main_run_quiet (quiet : list (option string * Q)) (st : MainState) :
  Forall (fun turn => truthy (fst turn) = false) quiet ->
  main_run quiet st = st.
Proof.
  intros H. revert st. induction H as [|turn quiet Ht _ IH]; intros st.
  - reflexivity.
  - change (main_run (turn :: quiet) st)
      with (main_run quiet (fst (main_step (fst turn) (snd turn) st))).
    unfold main_step. cbn zeta. rewrite Ht. cbn [fst]. apply IH.
Qed.

(** X15. After a turn that received the event [e] at tick time [t],
    followed by turns without an event, a turn without an event at tick
    time [now] hands [e] to [draw] when [now - t < 1.0], and draws nothing
    when [now - t >= 1.0]; what was recorded before [e] plays no part. *)
Theorem event_display_window (pre quiet : list (option string * Q))
  (e : string) (t now : Q) (st : MainState) :
  e <> ""%string ->
  Forall (fun turn => truthy (fst turn) = false) quiet ->
  let st' := main_run (pre ++ (Some e, t) :: quiet) st in
  st' = {| last_event := Some e; last_event_time := t |}
  /\ ((now - t < 1)%Q -> snd (main_step None now st') = Some e)
  /\ ((1 <= now - t)%Q -> snd (main_step None now st') = None).
Proof.
  intros He Hq st'.
  assert (Ht : truthy (Some e) = true).
  { cbn. rewrite bool_decide_eq_false_2 by exact He. reflexivity. }
  assert (Hst : st' = {| last_event := Some e; last_event_time := t |}).
  { unfold st', main_run. rewrite fold_left_app. cbn [fold_left].
    fold (main_run quiet). rewrite (main_run_quiet quiet _ Hq).
    unfold main_step. cbn zeta. cbn [fst snd]. rewrite Ht. reflexivity. }
  split; [exact Hst|]. rewrite Hst. unfold main_step. cbn zeta.
  cbn [truthy last_event last_event_time snd]. fold (truthy (Some e)).
  rewrite Ht. cbn [andb]. unfold event_display_duration.
  split; intros H.
  - rewrite (proj2 (Qltb_lt _ _) H). reflexivity.
  - rewrite (proj2 (Qltb_ge _ _) H). reflexivity.
Qed.

Lemma event_display_window_witness :
  snd (main_step None (13 # 10) (main_run clap_wave_pause main_init))
  = Some "wave"%string
  /\ snd (main_step None (3 # 2) (main_run clap_wave_pause main_init))
     = None.
Proof.
  split.
  - apply (proj1 (proj2 (event_display_window
                           [(Some "clap_gesture"%string, 0%Q)] [(None, 1%Q)]
                           "wave" (1 # 2) (13 # 10) main_init
                           ltac:(discriminate)
                           ltac:(repeat constructor)))).
    vm_compute. reflexivity.
  - apply (proj2 (proj2 (event_display_window
                           [(Some "clap_gesture"%string, 0%Q)] [(None, 1%Q)]
                           "wave" (1 # 2) (3 # 2) main_init
                           ltac:(discriminate)
                           ltac:(repeat constructor)))).
    vm_compute. discriminate.
Defined.

(** ** X16: what a returned clap tells about the history *)

(** X16. When [detect] returns [clap_gesture], the history it leaves holds
    at least three distances, its last one (the current wrist distance) is
    below 120, and one of those before the last two is above 200. *)
Theorem clap_returned_only_if (frame : Frame) (w : World) :
  fst (detect frame w) = Return (Some "clap_gesture"%string) ->
  exists hist d,
    clap_dist_history (self (snd (detect frame w))) = Some hist
    /\ last hist = Some d
    /\ dist_lt d 120 = true
    /\ (exists e, e ∈ take (length hist - 2) hist /\ dist_gt e 200 = true)
    /\ 3 <= length hist.
Proof.
  intros Hr. unfold detect in *.
  destruct (multi_hand_landmarks frame) as [|h1 rest] eqn:E;
    [discriminate Hr|].
  rewrite bind_unfold in *.
  destruct (clap_phase frame (h1 :: rest) w) as [[[g|]|e] w1] eqn:Ec;
    cbn [fst snd] in *.
  2:{ exfalso. exact (for_hands_never_clap frame (h1 :: rest) w1 Hr). }
  2:{ discriminate Hr. }
  unfold clap_phase in Ec.
  destruct (length (h1 :: rest) =? 2) eqn:E2.
  2:{ munfold. cbn in Ec. discriminate Ec. }
  apply Nat.eqb_eq in E2.
  destruct rest as [|h2 [|h3 rest]]; try discriminate E2.
  destruct (landmark h1 !! 0) as [a|] eqn:Ea.
  2:{ unfold clap_branch in Ec. destruct (shape frame) as [[h wd] c].
      munfold. cbn in Ec. rewrite Ea in Ec. discriminate Ec. }
  destruct (landmark h2 !! 0) as [b|] eqn:Eb.
  2:{ unfold clap_branch in Ec. destruct (shape frame) as [[h wd] c].
      munfold. cbn in Ec. rewrite Ea, Eb in Ec. discriminate Ec. }
  rewrite (clap_branch_two_hands frame w h1 h2 a b Ea Eb) in Ec.
  cbn zeta in Ec.
  set (d := wrist_distance (fst (fst (shape frame)))
              (snd (fst (shape frame))) a b) in *.
  set (hist := push_history (clap_dist_history (self w)) d) in *.
  destruct (clap_candidate hist d) eqn:Ecand; [|discriminate Ec].
  exists hist, d.
  assert (Hh : clap_dist_history (self w1) = Some hist).
  { pose proof (keeps_bind_from (fun s => clap_dist_history s = Some hist)
                  (_debounce "clap_gesture")
                  (fun b : bool =>
                     if b then ret (Some "clap_gesture"%string) else ret None)
                  (with_history hist w)) as K.
    rewrite Ec in K. apply K.
    - apply keeps_debounce_history. reflexivity.
    - intros []; apply keeps_ret. }
  unfold clap_candidate in Ecand. apply andb_true_iff in Ecand as [Hfar Hclose].
  unfold was_far in Hfar. apply existsb_exists in Hfar as (e & Hin & He).
  split; [exact Hh|]. split; [apply push_history_last|].
  split; [exact Hclose|]. split.
  - exists e. split; [apply list_elem_of_In; exact Hin | exact He].
  - destruct (le_lt_dec 3 (length hist)) as [H3|H3]; [exact H3|].
    exfalso. replace (length hist - 2) with 0 in Hin by lia.
    rewrite take_0 in Hin. inversion Hin.
Qed.

Lemma clap_returned_only_if_witness :
  exists hist d,
    clap_dist_history
      (self (snd (detect (two_hands_at 90)
                    (run (map two_hands_at [250; 230; 210]%Z) (fresh clock0)))))
    = Some hist
    /\ last hist = Some d
    /\ dist_lt d 120 = true
    /\ (exists e, e ∈ take (length hist - 2) hist /\ dist_gt e 200 = true)
    /\ 3 <= length hist.
Proof.
  apply (clap_returned_only_if (two_hands_at 90)
           (run (map two_hands_at [250; 230; 210]%Z) (fresh clock0))).
  vm_compute. reflexivity.
Defined.

(** ** X17: a two-hand frame with a hand that has no point *)

(** X17. On a two-hand frame in which one of the hands has no landmark at
    all, [detect] raises [IndexError] before it assigns anything: the
    detector, the history included, and the clock are as before. *)
Theorem empty_hand_raises (frame : Frame) (w : World)
  (h1 h2 : NormalizedLandmarkList) :
  multi_hand_landmarks frame = [h1; h2] ->
  landmark h1 = [] \/ landmark h2 = [] ->
  detect frame w = (Raise IndexError, w).
Proof.
  intros Hh Hempty. unfold detect. rewrite Hh. rewrite bind_unfold.
  unfold clap_phase. cbn [length Nat.eqb]. unfold clap_branch.
  destruct (shape frame) as [[h wd] c]. munfold. cbn.
  destruct (landmark h1) as [|a r1]; [reflexivity|].
  destruct Hempty as [Hempty|Hempty]; [discriminate Hempty|].
  rewrite Hempty. reflexivity.
Qed.

Lemma empty_hand_raises_witness :
  fst (detect fist_and_nothing after_open_hand) = Raise IndexError
  /\ snd (detect fist_and_nothing after_open_hand) = after_open_hand.
Proof.
  rewrite (empty_hand_raises fist_and_nothing after_open_hand
             (fist (1 # 2) (1 # 2)) {| landmark := [] |} eq_refl
             (or_intror eq_refl)).
  split; reflexivity.
Defined.
